(** * PKCE challenge derivation and authorization-code exchange

    A shallow embedding of the two client-side procedures of the OIDC test
    frontend:

    - [src/app/page.tsx]: [generateRandomString] and [sha256], the helpers
      behind [startAuthFlow];
    - the callback page ([AuthCallbackPage]): the [useEffect] dispatch on the
      redirect parameters and [exchangeCodeForTokens].

    The browser primitives the code calls ([TextEncoder], [crypto.subtle.digest],
    [btoa], [String.prototype.replace], [sessionStorage], [fetch]) are not part
    of the repository; they are modelled after their own standards (WHATWG
    Encoding, FIPS 180-4, RFC 4648, ECMAScript). *)

From Stdlib Require Import ZArith List String Ascii Bool Lia.
From stdpp Require Import base option gmap strings pretty.
Import ListNotations.

Local Open Scope Z_scope.

(** ** JavaScript strings

    A JavaScript string is a sequence of UTF-16 code units.  The PKCE helpers
    compute on individual code units, so strings are lists of integers there. *)

Definition jsstring : Type := list Z.

(** A literal whose characters are all below U+0100. *)
Definition js (s : string) : jsstring :=
  List.map (fun a => Z.of_N (N_of_ascii a)) (list_ascii_of_string s).

Module Sha256.

(** *** FIPS 180-4, SHA-256, on 32-bit words held in [Z] *)

Definition mask32 : Z := 0xFFFFFFFF.
Definition add32 (x y : Z) : Z := Z.land (x + y) mask32.
Definition shr (n x : Z) : Z := Z.shiftr x n.
Definition rotr (n x : Z) : Z :=
  Z.lor (Z.shiftr x n) (Z.land (Z.shiftl x (32 - n)) mask32).
Definition not32 (x : Z) : Z := Z.lxor x mask32.

Definition Ch (x y z : Z) : Z := Z.lxor (Z.land x y) (Z.land (not32 x) z).
Definition Maj (x y z : Z) : Z :=
  Z.lxor (Z.lxor (Z.land x y) (Z.land x z)) (Z.land y z).
Definition Sigma0 (x : Z) : Z := Z.lxor (Z.lxor (rotr 2 x) (rotr 13 x)) (rotr 22 x).
Definition Sigma1 (x : Z) : Z := Z.lxor (Z.lxor (rotr 6 x) (rotr 11 x)) (rotr 25 x).
Definition sigma0 (x : Z) : Z := Z.lxor (Z.lxor (rotr 7 x) (rotr 18 x)) (shr 3 x).
Definition sigma1 (x : Z) : Z := Z.lxor (Z.lxor (rotr 17 x) (rotr 19 x)) (shr 10 x).

Definition K : list Z :=
  [ 0x428A2F98; 0x71374491; 0xB5C0FBCF; 0xE9B5DBA5; 0x3956C25B; 0x59F111F1;
    0x923F82A4; 0xAB1C5ED5; 0xD807AA98; 0x12835B01; 0x243185BE; 0x550C7DC3;
    0x72BE5D74; 0x80DEB1FE; 0x9BDC06A7; 0xC19BF174; 0xE49B69C1; 0xEFBE4786;
    0x0FC19DC6; 0x240CA1CC; 0x2DE92C6F; 0x4A7484AA; 0x5CB0A9DC; 0x76F988DA;
    0x983E5152; 0xA831C66D; 0xB00327C8; 0xBF597FC7; 0xC6E00BF3; 0xD5A79147;
    0x06CA6351; 0x14292967; 0x27B70A85; 0x2E1B2138; 0x4D2C6DFC; 0x53380D13;
    0x650A7354; 0x766A0ABB; 0x81C2C92E; 0x92722C85; 0xA2BFE8A1; 0xA81A664B;
    0xC24B8B70; 0xC76C51A3; 0xD192E819; 0xD6990624; 0xF40E3585; 0x106AA070;
    0x19A4C116; 0x1E376C08; 0x2748774C; 0x34B0BCB5; 0x391C0CB3; 0x4ED8AA4A;
    0x5B9CCA4F; 0x682E6FF3; 0x748F82EE; 0x78A5636F; 0x84C87814; 0x8CC70208;
    0x90BEFFFA; 0xA4506CEB; 0xBEF9A3F7; 0xC67178F2 ].

(** The eight working variables / chaining values. *)
Definition state : Type := (Z * Z * Z * Z * Z * Z * Z * Z)%type.

Definition H0 : state :=
  (0x6A09E667, 0xBB67AE85, 0x3C6EF372, 0xA54FF53A,
   0x510E527F, 0x9B05688C, 0x1F83D9AB, 0x5BE0CD19).

(** Padding (section 5.1.1): one [0x80] byte, zero bytes up to 56 modulo
    64, then the bit length as a 64-bit big-endian integer. *)
Definition be_bytes (n : nat) (x : Z) : list Z :=
  List.map (fun i => Z.land (Z.shiftr x (8 * Z.of_nat i)) 255) (rev (seq 0 n)).

Definition pad (msg : list Z) : list Z :=
  let len := Z.of_nat (List.length msg) in
  msg ++ [0x80]
      ++ repeat 0 (Z.to_nat ((55 - len) mod 64))
      ++ be_bytes 8 (8 * len).

Definition be32 (bs : list Z) : Z :=
  fold_left (fun acc b => Z.lor (Z.shiftl acc 8) b) bs 0.

(** [chunks fuel n l] cuts [l] into consecutive pieces of [n] elements. *)
Fixpoint chunks (fuel n : nat) (l : list Z) : list (list Z) :=
  match fuel, l with
  | O, _ | _, [] => []
  | S fuel', _ => firstn n l :: chunks fuel' n (skipn n l)
  end.

Definition words (block : list Z) : list Z :=
  List.map be32 (chunks 16 4 block).

(** Message schedule (section 6.2.2, step 1), as a sliding window of the
    last sixteen words. *)
Definition next_word (w : list Z) : Z :=
  add32 (add32 (add32 (sigma1 (nth 14 w 0)) (nth 9 w 0)) (sigma0 (nth 1 w 0)))
        (nth 0 w 0).

Fixpoint schedule (n : nat) (w : list Z) : list Z :=
  match n with
  | O => []
  | S n' => nth 0 w 0 :: schedule n' (tl w ++ [next_word w])
  end.

Definition round (st : state) (kw : Z * Z) : state :=
  let '(a, b, c, d, e, f, g, h) := st in
  let T1 := add32 (add32 (add32 (add32 h (Sigma1 e)) (Ch e f g)) (fst kw)) (snd kw) in
  let T2 := add32 (Sigma0 a) (Maj a b c) in
  (add32 T1 T2, a, b, c, add32 d T1, e, f, g).

Definition compress (st : state) (block : list Z) : state :=
  let '(a, b, c, d, e, f, g, h) := st in
  let '(a', b', c', d', e', f', g', h') :=
    fold_left round (combine K (schedule 64 (words block))) st in
  (add32 a a', add32 b b', add32 c c', add32 d d',
   add32 e e', add32 f f', add32 g g', add32 h h').

Definition output (st : state) : list Z :=
  let '(a, b, c, d, e, f, g, h) := st in
  be_bytes 4 a ++ be_bytes 4 b ++ be_bytes 4 c ++ be_bytes 4 d ++
  be_bytes 4 e ++ be_bytes 4 f ++ be_bytes 4 g ++ be_bytes 4 h.

Definition digest (msg : list Z) : list Z :=
  let padded := pad msg in
  output (fold_left compress (chunks (List.length padded) 64 padded) H0).

End Sha256.

(** ** Browser primitives used by [src/app/page.tsx] *)

Module Browser.

(** [TextEncoder.prototype.encode]: UTF-8 of the string's code points; a
    surrogate that is not part of a pair becomes U+FFFD (EF BF BD). *)
Definition is_high_surrogate (c : Z) : bool := (0xD800 <=? c) && (c <=? 0xDBFF).
Definition is_low_surrogate (c : Z) : bool := (0xDC00 <=? c) && (c <=? 0xDFFF).

Definition utf8_2 (c : Z) : list Z :=
  [Z.lor 0xC0 (Z.shiftr c 6); Z.lor 0x80 (Z.land c 0x3F)].
Definition utf8_3 (c : Z) : list Z :=
  [Z.lor 0xE0 (Z.shiftr c 12); Z.lor 0x80 (Z.land (Z.shiftr c 6) 0x3F);
   Z.lor 0x80 (Z.land c 0x3F)].
Definition utf8_4 (c : Z) : list Z :=
  [Z.lor 0xF0 (Z.shiftr c 18); Z.lor 0x80 (Z.land (Z.shiftr c 12) 0x3F);
   Z.lor 0x80 (Z.land (Z.shiftr c 6) 0x3F); Z.lor 0x80 (Z.land c 0x3F)].

Definition pair_code_point (hi lo : Z) : Z :=
  0x10000 + Z.shiftl (hi - 0xD800) 10 + (lo - 0xDC00).

Fixpoint TextEncoder_encode (s : jsstring) : list Z :=
  match s with
  | [] => []
  | c :: rest =>
      if c <? 0x80 then c :: TextEncoder_encode rest
      else if c <? 0x800 then utf8_2 c ++ TextEncoder_encode rest
      else if is_high_surrogate c then
        match rest with
        | d :: rest' =>
            if is_low_surrogate d
            then utf8_4 (pair_code_point c d) ++ TextEncoder_encode rest'
            else utf8_3 0xFFFD ++ TextEncoder_encode rest
        | [] => utf8_3 0xFFFD
        end
      else if is_low_surrogate c then utf8_3 0xFFFD ++ TextEncoder_encode rest
      else utf8_3 c ++ TextEncoder_encode rest
  end.

(** [crypto.subtle.digest("SHA-256", data)]. *)
Definition crypto_subtle_digest_SHA256 (data : list Z) : list Z :=
  Sha256.digest data.

(** [String.fromCharCode(...codes)]: every argument is taken modulo 2^16. *)
Definition String_fromCharCode (codes : list Z) : jsstring :=
  List.map (fun c => c mod 65536) codes.

(** [btoa]: RFC 4648 section 4 over the code units read as bytes; it throws
    [InvalidCharacterError] ([None]) on a code unit above U+00FF. *)
Definition base64_alphabet : jsstring :=
  Eval cbv in js "ABCDEFGHIJKLMNOPQRSTUVWXYZabcdefghijklmnopqrstuvwxyz0123456789+/".

Definition sextet1 (a : Z) : Z := Z.shiftr a 2.
Definition sextet2 (a b : Z) : Z := Z.lor (Z.shiftl (Z.land a 3) 4) (Z.shiftr b 4).
Definition sextet3 (b c : Z) : Z := Z.lor (Z.shiftl (Z.land b 15) 2) (Z.shiftr c 6).
Definition sextet4 (c : Z) : Z := Z.land c 63.

Definition b64 (i : Z) : Z := nth (Z.to_nat i) base64_alphabet 0.
Definition pad_char : Z := 61.

Fixpoint base64_encode (bs : list Z) : jsstring :=
  match bs with
  | [] => []
  | [a] => [b64 (sextet1 a); b64 (sextet2 a 0); pad_char; pad_char]
  | [a; b] => [b64 (sextet1 a); b64 (sextet2 a b); b64 (sextet3 b 0); pad_char]
  | a :: b :: c :: rest =>
      b64 (sextet1 a) :: b64 (sextet2 a b) :: b64 (sextet3 b c) :: b64 (sextet4 c)
        :: base64_encode rest
  end.

Definition btoa (s : jsstring) : option jsstring :=
  if forallb (fun c => (0 <=? c) && (c <=? 255)) s
  then Some (base64_encode s)
  else None.

(** [s.replace(/c/g, r)] for a one-character pattern and replacement. *)
Definition replace_all (c r : Z) (s : jsstring) : jsstring :=
  List.map (fun x => if x =? c then r else x) s.

(** [s.replace(/c+$/, "")]: the leftmost position from which the rest of the
    string is a non-empty run of [c] is where the only match starts. *)
Fixpoint replace_trailing (c : Z) (s : jsstring) : jsstring :=
  match s with
  | [] => []
  | x :: rest =>
      if (x =? c) && forallb (Z.eqb c) rest then []
      else x :: replace_trailing c rest
  end.

(** [new Uint8Array(length)] followed by [crypto.getRandomValues]: every
    slot is overwritten with a byte drawn from the entropy source, here a
    function from the slot index.  This is the call on an array of at most
    65536 bytes; on a longer one the browser throws [QuotaExceededError],
    a path the page (which asks for 128 and for 16 bytes) never takes and
    that is not modelled. *)
Definition new_Uint8Array (length : nat) : list Z := repeat 0 length.

Definition crypto_getRandomValues (entropy : nat -> Z) (arr : list Z) : list Z :=
  imap (fun i _ => entropy i mod 256) arr.

End Browser.

(** ** [src/app/page.tsx]: the PKCE helpers *)

Module Pkce.
Import Browser.

Definition charset : jsstring :=
  Eval cbv in js "ABCDEFGHIJKLMNOPQRSTUVWXYZabcdefghijklmnopqrstuvwxyz0123456789-._~".

(** [generateRandomString(length)], with the entropy source explicit.
    [charset[i]] is [undefined] out of range, which [+=] would append as
    the text "undefined". *)
Definition charset_at (i : Z) : jsstring :=
  match nth_error charset (Z.to_nat i) with
  | Some ch => [ch]
  | None => js "undefined"
  end.

Definition generateRandomString (entropy : nat -> Z) (length : nat) : jsstring :=
  let result := [] in
  let randomValues := crypto_getRandomValues entropy (new_Uint8Array length) in
  fold_left
    (fun result v => result ++ charset_at (v mod Z.of_nat (List.length charset)))
    randomValues result.

(** [sha256(plain)]; [None] stands for a rejected promise. *)
Definition sha256 (plain : jsstring) : option jsstring :=
  let data := TextEncoder_encode plain in
  let hash := crypto_subtle_digest_SHA256 data in
  s ← btoa (String_fromCharCode hash);
  Some (replace_trailing 61 (replace_all 47 95 (replace_all 43 45 s))).

(** The verifier [startAuthFlow] generates and stores. *)
Definition codeVerifier (entropy : nat -> Z) : jsstring :=
  generateRandomString entropy 128.

End Pkce.

(** ** What the specification calls base64url

    RFC 4648 section 5 without padding, written directly: its own alphabet,
    and only as many characters as the input has sextets. *)

Module Spec.

Definition base64url_alphabet : jsstring :=
  Eval cbv in js "ABCDEFGHIJKLMNOPQRSTUVWXYZabcdefghijklmnopqrstuvwxyz0123456789-_".

Definition u64 (i : Z) : Z := nth (Z.to_nat i) base64url_alphabet 0.

Fixpoint base64url (bs : list Z) : jsstring :=
  match bs with
  | [] => []
  | [a] => [u64 (Browser.sextet1 a); u64 (Browser.sextet2 a 0)]
  | [a; b] =>
      [u64 (Browser.sextet1 a); u64 (Browser.sextet2 a b); u64 (Browser.sextet3 b 0)]
  | a :: b :: c :: rest =>
      u64 (Browser.sextet1 a) :: u64 (Browser.sextet2 a b)
        :: u64 (Browser.sextet3 b c) :: u64 (Browser.sextet4 c) :: base64url rest
  end.

Definition byte (b : Z) : Prop := 0 <= b < 256.
Definition sextet (i : Z) : Prop := 0 <= i < 64.

(** Membership in the base64url alphabet, by character class. *)
Definition is_base64url_char (c : Z) : bool :=
  ((65 <=? c) && (c <=? 90)) || ((97 <=? c) && (c <=? 122))
  || ((48 <=? c) && (c <=? 57)) || (c =? 45) || (c =? 95).

(** What the two global [replace] calls of [sha256] do to one character. *)
Definition to_url (c : Z) : Z :=
  let c1 := if c =? 43 then 45 else c in
  if c1 =? 47 then 95 else c1.

(** The check run over the 64 sextet values: the base64 symbol becomes the
    base64url symbol, and neither is the padding character. *)
Definition sextet_ok (n : nat) : bool :=
  let i := Z.of_nat n in
  (to_url (Browser.b64 i) =? u64 i) && negb (u64 i =? 61)
  && negb (Browser.b64 i =? 61)
  && is_base64url_char (u64 i)
  && negb (u64 i =? 43) && negb (u64 i =? 47).

(** The unreserved characters of RFC 3986: letters, digits, - . _ ~ *)
Definition is_unreserved (c : Z) : bool :=
  ((65 <=? c) && (c <=? 90)) || ((97 <=? c) && (c <=? 122))
  || ((48 <=? c) && (c <=? 57))
  || (c =? 45) || (c =? 46) || (c =? 95) || (c =? 126).

End Spec.

(** ** JavaScript values, as far as the callback page observes them *)

Module Js.

(** The syntax tree of a JSON text, as [response.json()] and [JSON.parse]
    deliver it.  Numbers are IEEE-754 doubles; their type is left to the
    platform. *)
#[local] Set Warnings "-register-all".
Inductive json (number : Type) : Type :=
| JNull
| JBool (b : bool)
| JNumber (n : number)
| JString (s : string)
| JArray (items : list (json number))
| JObject (members : list (string * json number)).

Arguments JNull {number}.
Arguments JBool {number} b.
Arguments JNumber {number} n.
Arguments JString {number} s.
Arguments JArray {number} items.
Arguments JObject {number} members.

(** How a statement or a promise completes: normally, or by throwing (a
    rejected promise).  Of a thrown [Error] the page reads only [message]. *)
Inductive completion (A : Type) : Type :=
| Normal (a : A)
| Throw (message : string).

Arguments Normal {A} a.
Arguments Throw {A} message.

(** What the code needs from the engine and cannot be written down here
    without fixing a number representation or an engine's message texts. *)
Record Platform : Type := {
  number : Type;
  (* ToBoolean on a number: false for +0 and -0 (JSON has no NaN) *)
  number_truthy : number -> bool;
  (* Number::toString *)
  number_toString : number -> string;
  (* JSON.stringify on a parsed JSON value *)
  JSON_stringify : json number -> string;
  (* message of the TypeError thrown when reading a property of null *)
  null_property_message : string -> string;
  (* message of the TypeError thrown when an object has no primitive value *)
  not_primitive_message : string;
  (* URLSearchParams.prototype.toString *)
  URLSearchParams_toString : list (string * string) -> string
}.

Section Values.
Context (P : Platform).

#[local] Abbreviation value := (json (number P)).

(** A JavaScript value read out of a JSON tree: [None] is [undefined]. *)
Definition ToBoolean (v : option value) : bool :=
  match v with
  | None | Some JNull => false
  | Some (JBool b) => b
  | Some (JNumber n) => number_truthy P n
  | Some (JString s) => negb (String.eqb s EmptyString)
  | Some (JArray _) | Some (JObject _) => true
  end.

(** [JSON.parse] keeps the last of several members with one name. *)
Definition member (name : string) (members : list (string * value)) : option value :=
  fold_left (fun found kv => if String.eqb (fst kv) name then Some (snd kv) else found)
            members None.

(** ToString.  An object parsed from JSON converts through
    [Object.prototype.toString] unless it has a member named [toString]:
    that member is never callable, [valueOf] does not yield a primitive
    either, and the conversion throws a TypeError.  An array converts
    through [join], element by element, and throws where an element does. *)
Fixpoint ToString_json (v : value) : completion string :=
  match v with
  | JNull => Normal "null"
  | JBool true => Normal "true"
  | JBool false => Normal "false"
  | JNumber n => Normal (number_toString P n)
  | JString s => Normal s
  | JArray items =>
      (* Array.prototype.join: null elements print as nothing *)
      (fix join (xs : list value) : completion string :=
         match xs with
         | [] => Normal EmptyString
         | x :: rest =>
             match (match x with JNull => Normal EmptyString | _ => ToString_json x end) with
             | Throw type_error => Throw type_error
             | Normal head =>
                 match rest with
                 | [] => Normal head
                 | _ :: _ =>
                     match join rest with
                     | Throw type_error => Throw type_error
                     | Normal tail => Normal (head +:+ "," +:+ tail)
                     end
                 end
             end
         end) items
  | JObject members =>
      match member "toString" members with
      | Some _ => Throw (not_primitive_message P)
      | None => Normal "[object Object]"
      end
  end.

Definition ToString (v : option value) : completion string :=
  match v with
  | None => Normal "undefined"
  | Some j => ToString_json j
  end.

(** [v.name], for a [name] that no built-in prototype defines (the four
    names the page reads are such): only objects have it, and reading it
    from [null] throws. *)
Definition Get (v : value) (name : string) : completion (option value) :=
  match v with
  | JNull => Throw (null_property_message P name)
  | JObject members => Normal (member name members)
  | _ => Normal None
  end.

(** [v.name] where the read is known not to throw. *)
Definition property (v : value) (name : string) : option value :=
  match Get v name with
  | Normal x => x
  | Throw _ => None
  end.

End Values.

(** [URLSearchParams.prototype.get]: the first value under the name. *)
Fixpoint URLSearchParams_get (params : list (string * string)) (name : string)
  : option string :=
  match params with
  | [] => None
  | (k, v) :: rest => if String.eqb k name then Some v else URLSearchParams_get rest name
  end.

(** Truthiness of a [string | null]. *)
Definition truthy (s : option string) : bool :=
  match s with
  | None => false
  | Some s => negb (String.eqb s EmptyString)
  end.

End Js.

(** ** The callback page: [AuthCallbackPage] *)

Module Callback.
Import Js.

Record Request : Type := {
  url : string;
  method : string;
  headers : list (string * string);
  body : string
}.

(** A [Response]: its status and what [response.json()] settles to (a
    body that is not JSON rejects with the parser's [SyntaxError]). *)
Record Response (number : Type) : Type := {
  status : Z;
  json_body : completion (json number)
}.

Arguments status {number} r.
Arguments json_body {number} r.

Definition ok {number : Type} (r : Response number) : bool :=
  (200 <=? status r) && (status r <=? 299).

(** Everything the page reads or writes. *)
Record World : Type := {
  sessionStorage : gmap string string;
  network : list Request;        (* requests dispatched, oldest first *)
  console : list string;         (* console.error lines, label and message *)
  timers : list (Z * string);    (* setTimeout(() => router.push(path), ms) *)
  error : option string;         (* useState<string | null>(null) *)
  exchanging : bool              (* useState(false) *)
}.

Definition M (A : Type) : Type := World -> completion A * World.

Definition ret {A : Type} (a : A) : M A := fun w => (Normal a, w).
Definition throw {A : Type} (message : string) : M A := fun w => (Throw message, w).
Definition bind {A B : Type} (m : M A) (k : A -> M B) : M B :=
  fun w => match m w with
           | (Normal a, w') => k a w'
           | (Throw e, w') => (Throw e, w')
           end.
Definition lift {A : Type} (c : completion A) : M A := fun w => (c, w).

Notation "'let!' x ':=' m 'in' k" := (bind m (fun x => k))
  (at level 10, x name, m at level 100, k at level 200, only parsing).
Notation "'do!' m 'in' k" := (bind m (fun _ => k))
  (at level 10, m at level 100, k at level 200, only parsing).

(** [try { body } catch (err) { handler(err.message) } finally { final }] *)
Definition try_catch_finally (body : M unit) (handler : string -> M unit)
           (final : M unit) : M unit :=
  fun w =>
    let '(r, w1) := match body w with
                    | (Normal _, w1) => (Normal tt, w1)
                    | (Throw e, w1) => handler e w1
                    end in
    match final w1 with
    | (Normal _, w2) => (r, w2)
    | (Throw e, w2) => (Throw e, w2)
    end.

Definition sessionStorage_getItem (key : string) : M (option string) :=
  fun w => (Normal (sessionStorage w !! key), w).

Definition sessionStorage_setItem (key value : string) : M unit :=
  fun w => (Normal tt,
            {| sessionStorage := <[key := value]> (sessionStorage w);
               network := network w; console := console w; timers := timers w;
               error := error w; exchanging := exchanging w |}).

Definition setError (e : option string) : M unit :=
  fun w => (Normal tt,
            {| sessionStorage := sessionStorage w; network := network w;
               console := console w; timers := timers w;
               error := e; exchanging := exchanging w |}).

Definition setExchanging (b : bool) : M unit :=
  fun w => (Normal tt,
            {| sessionStorage := sessionStorage w; network := network w;
               console := console w; timers := timers w;
               error := error w; exchanging := b |}).

Definition console_error (line : string) : M unit :=
  fun w => (Normal tt,
            {| sessionStorage := sessionStorage w; network := network w;
               console := console w ++ [line]; timers := timers w;
               error := error w; exchanging := exchanging w |}).

Definition setTimeout_router_push (path : string) (ms : Z) : M unit :=
  fun w => (Normal tt,
            {| sessionStorage := sessionStorage w; network := network w;
               console := console w; timers := timers w ++ [(ms, path)];
               error := error w; exchanging := exchanging w |}).

Section Page.
Context (P : Platform).

#[local] Abbreviation value := (json (number P)).

(** The token endpoint and the network in front of it: what [fetch]
    settles to for a request ([Throw]: the request never got an answer). *)
Context (server : Request -> completion (Response (number P))).

Definition fetch (req : Request) : M (Response (number P)) :=
  fun w => (server req,
            {| sessionStorage := sessionStorage w; network := network w ++ [req];
               console := console w; timers := timers w;
               error := error w; exchanging := exchanging w |}).

Definition token_request (code codeVerifier : string) : Request :=
  let params :=
    [ ("grant_type", "authorization_code");
      ("code", code);
      ("redirect_uri", "http://localhost:3000/auth/callback");
      ("client_id", "partner-dashboard-local-2");
      ("code_verifier", codeVerifier) ] in
  {| url := "/oidc/token";
     method := "POST";
     headers := [("Content-Type", "application/x-www-form-urlencoded")];
     body := URLSearchParams_toString P params |}.

Definition exchangeCodeForTokens (code : string) : M unit :=
  do! setExchanging true in
  try_catch_finally
    ( let! codeVerifier := sessionStorage_getItem "code_verifier" in
      if negb (truthy codeVerifier) then
        throw "Code verifier not found. Please start the auth flow from the home page."
      else
        let! response := fetch (token_request code (default EmptyString codeVerifier)) in
        if negb (ok response) then
          let! errorData := lift (json_body response) in
          let! description := lift (Get P errorData "error_description") in
          (* new Error(message) converts its argument *)
          let! message := lift (if ToBoolean P description
                                then ToString P description
                                else Normal "Token exchange failed") in
          throw message
        else
          let! tokenData := lift (json_body response) in
          (* Store tokens *)
          let! access_token := lift (Get P tokenData "access_token") in
          let! access_text := lift (ToString P access_token) in
          do! sessionStorage_setItem "access_token" access_text in
          let! id_token := lift (Get P tokenData "id_token") in
          let! id_text := lift (ToString P id_token) in
          do! sessionStorage_setItem "id_token" id_text in
          let! refresh_token := lift (Get P tokenData "refresh_token") in
          do! (if ToBoolean P refresh_token
               then let! refresh_text := lift (ToString P refresh_token) in
                    sessionStorage_setItem "refresh_token" refresh_text
               else ret tt) in
          (* Store full token response for display *)
          do! sessionStorage_setItem "tokens" (JSON_stringify P tokenData) in
          (* Redirect back to home page *)
          setTimeout_router_push "/" 1500 )
    (fun message =>
       do! console_error ("Token exchange error: " +:+ message) in
       setError (Some message))
    (setExchanging false).

(** The body of the page's [useEffect]. *)
Definition useEffect (searchParams : list (string * string)) : M unit :=
  let code := URLSearchParams_get searchParams "code" in
  let errorParam := URLSearchParams_get searchParams "error" in
  let errorDescription := URLSearchParams_get searchParams "error_description" in
  (* Handle error from OIDC provider *)
  if truthy errorParam then
    setError (Some (default EmptyString errorParam +:+ ": " +:+
                    (if truthy errorDescription
                     then default EmptyString errorDescription
                     else "Unknown error")))
  (* Check if code exists *)
  else if negb (truthy code) then
    setError (Some "Authorization code missing")
  (* Automatically exchange code for tokens *)
  else exchangeCodeForTokens (default EmptyString code).

(** The page as first rendered over a given session storage. *)
Definition mount (storage : gmap string string) : World :=
  {| sessionStorage := storage; network := []; console := []; timers := [];
     error := None; exchanging := false |}.

(** The page after [exchangeCodeForTokens code] has settled. *)
Definition exchange (code : string) (storage : gmap string string) : World :=
  snd (exchangeCodeForTokens code (mount storage)).

(** The page after its effect has run on the redirect's parameters. *)
Definition visit (searchParams : list (string * string))
           (storage : gmap string string) : World :=
  snd (useEffect searchParams (mount storage)).

(** The writes of the 2xx branch on a body that parsed to [data], one
    after the other: the session storage they leave, and the message of the
    conversion that threw, if one did. *)
Definition write_tokens (data : value) (storage : gmap string string)
  : gmap string string * option string :=
  match ToString P (property P data "access_token") with
  | Throw type_error => (storage, Some type_error)
  | Normal access_text =>
      let s1 := <["access_token" := access_text]> storage in
      match ToString P (property P data "id_token") with
      | Throw type_error => (s1, Some type_error)
      | Normal id_text =>
          let s2 := <["id_token" := id_text]> s1 in
          if ToBoolean P (property P data "refresh_token") then
            match ToString P (property P data "refresh_token") with
            | Throw type_error => (s2, Some type_error)
            | Normal refresh_text =>
                (<["tokens" := JSON_stringify P data]>
                   (<["refresh_token" := refresh_text]> s2), None)
            end
          else (<["tokens" := JSON_stringify P data]> s2, None)
      end
  end.

(** What the [catch] block receives when the endpoint answered non-2xx. *)
Definition rejection_message (resp : Response (number P)) : string :=
  match json_body resp with
  | Throw syntax_error => syntax_error
  | Normal JNull => null_property_message P "error_description"
  | Normal errorData =>
      if ToBoolean P (property P errorData "error_description")
      then match ToString P (property P errorData "error_description") with
           | Normal text => text
           | Throw type_error => type_error
           end
      else "Token exchange failed"
  end.

Definition failed (storage : gmap string string) (requests : list Request)
           (message : string) : World :=
  {| sessionStorage := storage; network := requests;
     console := ["Token exchange error: " +:+ message]; timers := [];
     error := Some message; exchanging := false |}.

Definition succeeded (storage : gmap string string) (requests : list Request) : World :=
  {| sessionStorage := storage; network := requests; console := [];
     timers := [(1500, "/")]; error := None; exchanging := false |}.

(** The page after the 2xx branch ran its writes. *)
Definition written (request : Request) (result : gmap string string * option string)
  : World :=
  match snd result with
  | None => succeeded (fst result) [request]
  | Some type_error => failed (fst result) [request] type_error
  end.

Definition missing_verifier : string :=
  "Code verifier not found. Please start the auth flow from the home page.".

(** Every way [exchangeCodeForTokens] can settle. *)
Inductive settles (code : string) (storage : gmap string string) : World -> Prop :=
| settles_failed (requests : list Request) (message : string) :
    settles code storage (failed storage requests message)
| settles_written (verifier : string) (resp : Response (number P))
                  (data : json (number P)) :
    storage !! "code_verifier" = Some verifier ->
    verifier <> EmptyString ->
    server (token_request code verifier) = Normal resp ->
    ok resp = true ->
    json_body resp = Normal data ->
    data <> JNull ->
    settles code storage
            (written (token_request code verifier) (write_tokens data storage)).

(** [load_verifier()] of the specification's storage contract. *)
Definition load_verifier (w : World) : option string :=
  sessionStorage w !! "code_verifier".

End Page.

End Callback.

(** ** A concrete engine

    One instance of [Js.Platform], to run the page on examples: JSON numbers
    restricted to integers, strings read as UTF-8 byte sequences, and the
    message texts of one engine.  [stringify] is exact on objects whose
    member names are distinct and not array indices. *)

Module Engine.
Import Js.

Definition quotation_mark : string := String (ascii_of_nat 34) EmptyString.
Definition backslash : string := String (ascii_of_nat 92) EmptyString.

Definition hex_upper (n : N) : ascii :=
  nth (N.to_nat n) (list_ascii_of_string "0123456789ABCDEF") "0"%char.
Definition hex_lower (n : N) : ascii :=
  nth (N.to_nat n) (list_ascii_of_string "0123456789abcdef") "0"%char.

(** QuoteJSONString, byte by byte. *)
Definition quote_char (a : ascii) : string :=
  let n := N_of_ascii a in
  if (n =? 34)%N then backslash +:+ quotation_mark
  else if (n =? 92)%N then backslash +:+ backslash
  else if (n =? 8)%N then backslash +:+ "b"
  else if (n =? 9)%N then backslash +:+ "t"
  else if (n =? 10)%N then backslash +:+ "n"
  else if (n =? 12)%N then backslash +:+ "f"
  else if (n =? 13)%N then backslash +:+ "r"
  else if (n <? 32)%N then
    backslash +:+ "u00" +:+
    String (hex_lower (n / 16)) (String (hex_lower (n mod 16)) EmptyString)
  else String a EmptyString.

Fixpoint quote_body (s : string) : string :=
  match s with
  | EmptyString => EmptyString
  | String a rest => quote_char a +:+ quote_body rest
  end.

Definition quote (s : string) : string :=
  quotation_mark +:+ quote_body s +:+ quotation_mark.

Fixpoint stringify (v : json Z) : string :=
  match v with
  | JNull => "null"
  | JBool true => "true"
  | JBool false => "false"
  | JNumber n => pretty n
  | JString s => quote s
  | JArray items =>
      "[" +:+
      (fix elements (xs : list (json Z)) : string :=
         match xs with
         | [] => EmptyString
         | x :: rest =>
             match rest with
             | [] => stringify x
             | _ :: _ => stringify x +:+ "," +:+ elements rest
             end
         end) items
      +:+ "]"
  | JObject members =>
      "{" +:+
      (fix properties (kvs : list (string * json Z)) : string :=
         match kvs with
         | [] => EmptyString
         | (k, x) :: rest =>
             match rest with
             | [] => quote k +:+ ":" +:+ stringify x
             | _ :: _ => quote k +:+ ":" +:+ stringify x +:+ "," +:+ properties rest
             end
         end) members
      +:+ "}"
  end.

(** The application/x-www-form-urlencoded serializer. *)
Definition form_byte (a : ascii) : string :=
  let n := N_of_ascii a in
  if ((48 <=? n) && (n <=? 57) || (65 <=? n) && (n <=? 90) || (97 <=? n) && (n <=? 122)
      || (n =? 42) || (n =? 45) || (n =? 46) || (n =? 95))%N
  then String a EmptyString
  else if (n =? 32)%N then "+"
  else String "%"%char (String (hex_upper (n / 16)) (String (hex_upper (n mod 16)) EmptyString)).

Fixpoint form_encode (s : string) : string :=
  match s with
  | EmptyString => EmptyString
  | String a rest => form_byte a +:+ form_encode rest
  end.

Fixpoint form_serialize (params : list (string * string)) : string :=
  match params with
  | [] => EmptyString
  | (k, v) :: rest =>
      let pair := form_encode k +:+ "=" +:+ form_encode v in
      match rest with
      | [] => pair
      | _ :: _ => pair +:+ "&" +:+ form_serialize rest
      end
  end.

Definition platform : Platform :=
  {| number := Z;
     number_truthy := fun n => negb (n =? 0);
     number_toString := pretty;
     JSON_stringify := stringify;
     null_property_message := fun name =>
       "Cannot read properties of null (reading '" +:+ name +:+ "')";
     not_primitive_message := "Cannot convert object to primitive value";
     URLSearchParams_toString := form_serialize |}.

(** A token endpoint that gives one fixed answer. *)
Definition answering (status : Z) (body : completion (json Z))
  : Callback.Request -> completion (Callback.Response Z) :=
  fun _ => Normal {| Callback.status := status; Callback.json_body := body |}.

End Engine.

(** ** Concrete runs of the callback page *)

Module Run.
Import Js Callback.

Definition code : string := "SplxlOBeZQQYbYS6WxSbIA".
Definition verifier : string := "dBjftJeZ4CVP-mB92K27uhbUJU1p1r_wW1gFWFOEjXk".

(** Session storage as [startAuthFlow] leaves it. *)
Definition session : gmap string string := {[ "code_verifier" := verifier ]}.

(** [{ access_token: abc, id_token: def, token_type: Bearer, expires_in: 3600 }] *)
Definition token_response : json Z :=
  JObject [("access_token", JString "abc"); ("id_token", JString "def");
           ("token_type", JString "Bearer"); ("expires_in", JNumber 3600)].

(** [{ error: invalid_grant }] *)
Definition invalid_grant : json Z :=
  JObject [("error", JString "invalid_grant")].

(** [{}] *)
Definition empty_object : json Z := JObject [].

(** [{ access_token: abc, id_token: { toString: 1 } }] *)
Definition odd_id_token : json Z :=
  JObject [("access_token", JString "abc");
           ("id_token", JObject [("toString", JNumber 1)])].

(** [{ error: invalid_grant, error_description: { toString: 1 } }] *)
Definition odd_description : json Z :=
  JObject [("error", JString "invalid_grant");
           ("error_description", JObject [("toString", JNumber 1)])].

(** Session storage with nothing in it. *)
Definition no_session : gmap string string := empty.

Definition exchange (status : Z) (body : completion (json Z))
           (storage : gmap string string) : World :=
  Callback.exchange Engine.platform (Engine.answering status body) code storage.

Definition visit (status : Z) (body : completion (json Z))
           (searchParams : list (string * string)) (storage : gmap string string) : World :=
  Callback.visit Engine.platform (Engine.answering status body) searchParams storage.

(** Whether [needle] occurs in [text]. *)
Fixpoint occurs (needle text : string) : bool :=
  String.prefix needle text
  || match text with
     | EmptyString => false
     | String _ rest => occurs needle rest
     end.

End Run.

(** ** The home page: [Home] of [src/app/page.tsx]

    The handlers behind the test client's buttons, over the page's React
    state, session storage, the requests it dispatches and the address it
    navigates to. *)

Module Home.
Import Js.

(** Where a string computed on code units meets the storage and URL APIs:
    the same text, as a [string]; exact for code units below U+0100. *)
Definition string_of_js (s : jsstring) : string :=
  string_of_list_ascii (List.map (fun c => ascii_of_N (Z.to_N c)) s).

(** A [fetch] call: [body] is [None] when no body is given. *)
Record Request : Type := {
  url : string;
  method : string;
  headers : list (string * string);
  body : option string
}.

Definition form_headers : list (string * string) :=
  [("Content-Type", "application/x-www-form-urlencoded")].

Section Component.
Context (P : Platform).

#[local] Abbreviation value := (json (number P)).

(** The component's [useState] cells; [JNull] is [null]. *)
Record State : Type := {
  loading : bool;
  tokens : value;
  userInfo : value;
  discoveryInfo : value;
  introspectionResult : value;
  error : option string
}.

Record World : Type := {
  sessionStorage : gmap string string;
  network : list Request;        (* requests dispatched, oldest first *)
  location : option string;      (* the last window.location.href assigned *)
  alerts : list string;          (* alert(...) messages *)
  console : list string;         (* console.error lines, label and message *)
  state : State
}.

Definition M (A : Type) : Type := World -> completion A * World.

Definition ret {A : Type} (a : A) : M A := fun w => (Normal a, w).
Definition throw {A : Type} (message : string) : M A := fun w => (Throw message, w).
Definition bind {A B : Type} (m : M A) (k : A -> M B) : M B :=
  fun w => match m w with
           | (Normal a, w') => k a w'
           | (Throw e, w') => (Throw e, w')
           end.
Definition lift {A : Type} (c : completion A) : M A := fun w => (c, w).

Notation "'let!' x ':=' m 'in' k" := (bind m (fun x => k))
  (at level 10, x name, m at level 100, k at level 200, only parsing).
Notation "'do!' m 'in' k" := (bind m (fun _ => k))
  (at level 10, m at level 100, k at level 200, only parsing).

(** [try { body } catch (err) { handler(err.message) }] *)
Definition try_catch (body : M unit) (handler : string -> M unit) : M unit :=
  fun w => match body w with
           | (Normal _, w1) => (Normal tt, w1)
           | (Throw e, w1) => handler e w1
           end.

(** [try { body } catch (err) { handler(err.message) } finally { final }] *)
Definition try_catch_finally (body : M unit) (handler : string -> M unit)
           (final : M unit) : M unit :=
  fun w =>
    let '(r, w1) := try_catch body handler w in
    match final w1 with
    | (Normal _, w2) => (r, w2)
    | (Throw e, w2) => (Throw e, w2)
    end.

Definition on_state (f : State -> State) : M unit :=
  fun w => (Normal tt,
            {| sessionStorage := sessionStorage w; network := network w;
               location := location w; alerts := alerts w; console := console w;
               state := f (state w) |}).

Definition on_storage (f : gmap string string -> gmap string string) : M unit :=
  fun w => (Normal tt,
            {| sessionStorage := f (sessionStorage w); network := network w;
               location := location w; alerts := alerts w; console := console w;
               state := state w |}).

Definition setLoading (b : bool) : M unit :=
  on_state (fun s => {| loading := b; tokens := tokens s; userInfo := userInfo s;
                        discoveryInfo := discoveryInfo s;
                        introspectionResult := introspectionResult s;
                        error := error s |}).

Definition setTokens (v : value) : M unit :=
  on_state (fun s => {| loading := loading s; tokens := v; userInfo := userInfo s;
                        discoveryInfo := discoveryInfo s;
                        introspectionResult := introspectionResult s;
                        error := error s |}).

Definition setUserInfo (v : value) : M unit :=
  on_state (fun s => {| loading := loading s; tokens := tokens s; userInfo := v;
                        discoveryInfo := discoveryInfo s;
                        introspectionResult := introspectionResult s;
                        error := error s |}).

Definition setDiscoveryInfo (v : value) : M unit :=
  on_state (fun s => {| loading := loading s; tokens := tokens s; userInfo := userInfo s;
                        discoveryInfo := v;
                        introspectionResult := introspectionResult s;
                        error := error s |}).

Definition setIntrospectionResult (v : value) : M unit :=
  on_state (fun s => {| loading := loading s; tokens := tokens s; userInfo := userInfo s;
                        discoveryInfo := discoveryInfo s;
                        introspectionResult := v;
                        error := error s |}).

Definition setError (e : option string) : M unit :=
  on_state (fun s => {| loading := loading s; tokens := tokens s; userInfo := userInfo s;
                        discoveryInfo := discoveryInfo s;
                        introspectionResult := introspectionResult s;
                        error := e |}).

Definition sessionStorage_getItem (key : string) : M (option string) :=
  fun w => (Normal (sessionStorage w !! key), w).

Definition sessionStorage_setItem (key value : string) : M unit :=
  on_storage (fun s => <[key := value]> s).

Definition sessionStorage_clear : M unit :=
  on_storage (fun _ => empty).

Definition navigate (href : string) : M unit :=
  fun w => (Normal tt,
            {| sessionStorage := sessionStorage w; network := network w;
               location := Some href; alerts := alerts w; console := console w;
               state := state w |}).

Definition alert (message : string) : M unit :=
  fun w => (Normal tt,
            {| sessionStorage := sessionStorage w; network := network w;
               location := location w; alerts := alerts w ++ [message];
               console := console w; state := state w |}).

Definition console_error (line : string) : M unit :=
  fun w => (Normal tt,
            {| sessionStorage := sessionStorage w; network := network w;
               location := location w; alerts := alerts w;
               console := console w ++ [line]; state := state w |}).

(** The endpoints behind [/oidc/...] and the network in front of them. *)
Context (server : Request -> completion (Callback.Response (number P))).

Definition fetch (req : Request) : M (Callback.Response (number P)) :=
  fun w => (server req,
            {| sessionStorage := sessionStorage w; network := network w ++ [req];
               location := location w; alerts := alerts w; console := console w;
               state := state w |}).

(** The message of the exception a rejected [sha256] promise carries. *)
Context (sha256_rejection : string).

Definition authorization_params (codeChallenge state : string)
  : list (string * string) :=
  [ ("client_id", "partner-dashboard-local-2");
    ("redirect_uri", "http://localhost:3000/auth/callback");
    ("scope", "openid profile email offline_access");
    ("response_type", "code");
    ("code_challenge", codeChallenge);
    ("code_challenge_method", "S256");
    ("state", state) ].

(** 1. Start Authorization Flow.  [entropy] is the stream
    [crypto.getRandomValues] draws from: the verifier takes its first 128
    bytes, the state parameter the next 16. *)
Definition startAuthFlow (entropy : nat -> Z) : M unit :=
  do! setLoading true in
  do! setError None in
  try_catch
    ( (* Generate PKCE values *)
      let codeVerifier := Pkce.generateRandomString entropy 128 in
      let! codeChallenge :=
        lift (match Pkce.sha256 codeVerifier with
              | Some challenge => Normal challenge
              | None => Throw sha256_rejection
              end) in
      (* Store code verifier for later use *)
      do! sessionStorage_setItem "code_verifier" (string_of_js codeVerifier) in
      (* Redirect to authorization endpoint *)
      let params :=
        authorization_params
          (string_of_js codeChallenge)
          (string_of_js (Pkce.generateRandomString (fun i => entropy (128 + i)%nat) 16)) in
      navigate ("/oidc/auth?" +:+ URLSearchParams_toString P params) )
    (fun message =>
       do! setError (Some message) in
       setLoading false).

(** 2. Get User Info *)
Definition getUserInfo : M unit :=
  do! setLoading true in
  do! setError None in
  try_catch_finally
    ( let! accessToken := sessionStorage_getItem "access_token" in
      if negb (truthy accessToken) then
        throw "No access token found. Please exchange code first."
      else
        let! response :=
          fetch {| url := "/oidc/me"; method := "GET";
                   headers := [("Authorization",
                                "Bearer " +:+ default EmptyString accessToken)];
                   body := None |} in
        if negb (Callback.ok response) then throw "Failed to get user info"
        else
          let! userData := lift (Callback.json_body response) in
          setUserInfo userData )
    (fun message => setError (Some message))
    (setLoading false).

Definition refresh_request (refreshToken : string) : Request :=
  let params :=
    [ ("grant_type", "refresh_token");
      ("refresh_token", refreshToken);
      ("client_id", "partner-dashboard-local-2") ] in
  {| url := "/oidc/token"; method := "POST"; headers := form_headers;
     body := Some (URLSearchParams_toString P params) |}.

(** 3. Refresh Token *)
Definition refreshAccessToken : M unit :=
  do! setLoading true in
  do! setError None in
  try_catch_finally
    ( let! refreshToken := sessionStorage_getItem "refresh_token" in
      if negb (truthy refreshToken) then throw "No refresh token found."
      else
        let! response := fetch (refresh_request (default EmptyString refreshToken)) in
        if negb (Callback.ok response) then throw "Token refresh failed"
        else
          let! tokenData := lift (Callback.json_body response) in
          do! setTokens tokenData in
          let! access_token := lift (Get P tokenData "access_token") in
          let! access_text := lift (ToString P access_token) in
          do! sessionStorage_setItem "access_token" access_text in
          let! refresh_token := lift (Get P tokenData "refresh_token") in
          if ToBoolean P refresh_token
          then let! refresh_text := lift (ToString P refresh_token) in
               sessionStorage_setItem "refresh_token" refresh_text
          else ret tt )
    (fun message => setError (Some message))
    (setLoading false).

(** 4. Get Discovery Info *)
Definition getDiscoveryInfo : M unit :=
  do! setLoading true in
  do! setError None in
  try_catch_finally
    ( let! response :=
        fetch {| url := "/oidc/.well-known/openid-configuration"; method := "GET";
                 headers := []; body := None |} in
      if negb (Callback.ok response) then throw "Failed to get discovery info"
      else
        let! data := lift (Callback.json_body response) in
        setDiscoveryInfo data )
    (fun message => setError (Some message))
    (setLoading false).

Definition introspection_request (accessToken : string) : Request :=
  let params :=
    [ ("token", accessToken);
      ("client_id", "partner-dashboard-local-2") ] in
  {| url := "/oidc/introspection"; method := "POST"; headers := form_headers;
     body := Some (URLSearchParams_toString P params) |}.

(** 5. Introspect Token *)
Definition introspectToken : M unit :=
  do! setLoading true in
  do! setError None in
  try_catch_finally
    ( let! accessToken := sessionStorage_getItem "access_token" in
      if negb (truthy accessToken) then throw "No access token found."
      else
        let! response :=
          fetch (introspection_request (default EmptyString accessToken)) in
        if negb (Callback.ok response) then throw "Token introspection failed"
        else
          let! data := lift (Callback.json_body response) in
          setIntrospectionResult data )
    (fun message => setError (Some message))
    (setLoading false).

Definition revocation_request (refreshToken : string) : Request :=
  let params :=
    [ ("token", refreshToken);
      ("token_type_hint", "refresh_token");
      ("client_id", "partner-dashboard-local-2") ] in
  {| url := "/oidc/token/revocation"; method := "POST"; headers := form_headers;
     body := Some (URLSearchParams_toString P params) |}.

(** 6. Revoke Token *)
Definition revokeToken : M unit :=
  do! setLoading true in
  do! setError None in
  try_catch_finally
    ( let! refreshToken := sessionStorage_getItem "refresh_token" in
      if negb (truthy refreshToken) then throw "No refresh token found."
      else
        let! response := fetch (revocation_request (default EmptyString refreshToken)) in
        (* RFC 7009: success == 200 *)
        if negb (Callback.ok response) then throw "Token revocation failed"
        else
          (* Local cleanup *)
          do! sessionStorage_clear in
          do! setTokens JNull in
          do! setUserInfo JNull in
          do! setIntrospectionResult JNull in
          alert "Refresh token revoked successfully" )
    (fun message => setError (Some message))
    (setLoading false).

(** [tokens?.id_token] *)
Definition optional_id_token (tokens : value) : option value :=
  match tokens with
  | JNull => None
  | _ => property P tokens "id_token"
  end.

(** The [id_token_hint] entry [searchParams.set] adds, when it is added;
    [set] converts its value to a string, which can throw. *)
Definition id_token_hint (idToken : option value)
  : completion (list (string * string)) :=
  if ToBoolean P idToken then
    match ToString P idToken with
    | Normal text => Normal [("id_token_hint", text)]
    | Throw type_error => Throw type_error
    end
  else Normal [].

Definition logout_params (hint : list (string * string)) (uuid : string)
  : list (string * string) :=
  [("post_logout_redirect_uri", "http://localhost:3000")] ++ hint ++ [("state", uuid)].

(** 7. Logout; [uuid] is what [crypto.randomUUID()] returns.  The handler
    has no [try]: an exception leaves it where it is thrown. *)
Definition logout (uuid : string) : M unit :=
  let! idToken := (fun w => (Normal (optional_id_token (tokens (state w))), w)) in
  (* Clear client-side auth state immediately *)
  do! sessionStorage_clear in
  do! setTokens JNull in
  do! setUserInfo JNull in
  do! setIntrospectionResult JNull in
  let! hint := lift (id_token_hint idToken) in
  navigate ("http://localhost:4001/oidc/session/end?"
              +:+ URLSearchParams_toString P (logout_params hint uuid)).

(** [JSON.parse], for the effect that runs on mount. *)
Context (JSON_parse : string -> completion value).

(** Load tokens from sessionStorage on mount *)
Definition useEffect : M unit :=
  let! storedTokens := sessionStorage_getItem "tokens" in
  if truthy storedTokens then
    try_catch
      ( let! parsed := lift (JSON_parse (default EmptyString storedTokens)) in
        setTokens parsed )
      (fun message => console_error ("Failed to parse stored tokens: " +:+ message))
  else ret tt.

(** The component as first rendered over a given session storage. *)
Definition mount (storage : gmap string string) : World :=
  {| sessionStorage := storage; network := []; location := None; alerts := [];
     console := [];
     state := {| loading := false; tokens := JNull; userInfo := JNull;
                 discoveryInfo := JNull; introspectionResult := JNull;
                 error := None |} |}.

(** The world after a handler has settled. *)
Definition after (handler : M unit) (w : World) : World := snd (handler w).

End Component.

Arguments loading {P} s.
Arguments tokens {P} s.
Arguments userInfo {P} s.
Arguments discoveryInfo {P} s.
Arguments introspectionResult {P} s.
Arguments error {P} s.
Arguments sessionStorage {P} w.
Arguments network {P} w.
Arguments location {P} w.
Arguments alerts {P} w.
Arguments console {P} w.
Arguments state {P} w.
Arguments after {P} handler w.

End Home.

(** ** Reading sextets back

    The three bytes of a group, recovered from its four sextets; used to
    show that nothing of the digest is lost on the way to the challenge. *)

Module Decode.

Definition byte1 (s1 s2 : Z) : Z := Z.lor (Z.shiftl s1 2) (Z.shiftr s2 4).
Definition byte2 (s2 s3 : Z) : Z := Z.lor (Z.shiftl (Z.land s2 15) 4) (Z.shiftr s3 2).
Definition byte3 (s3 s4 : Z) : Z := Z.lor (Z.shiftl (Z.land s3 3) 6) s4.

(** A check over all pairs of byte values. *)
Definition all_byte_pairs (f : Z -> Z -> bool) : bool :=
  forallb (fun i => forallb (fun j => f (Z.of_nat i) (Z.of_nat j)) (seq 0 256)) (seq 0 256).

(** How many byte values select the [k]-th symbol of the charset. *)
Definition byte_values_selecting (k : Z) : nat :=
  List.length
    (List.filter (fun v => Z.of_nat v mod Z.of_nat (List.length Pkce.charset) =? k)
                 (seq 0 256)).

End Decode.

(** ** Properties of handlers of the home page *)

Module HomeProps.
Import Js Home.

(** A handler that only looks things up: whatever the world it starts in,
    it leaves session storage, the address, the alerts and the displayed
    tokens as they were, dispatches at most one request, and ends with the
    loading flag off. *)
Definition looks_up_only {P : Platform} (handler : M P unit) : Prop :=
  forall w : World P,
    let w' := after handler w in
    sessionStorage w' = sessionStorage w
    /\ location w' = location w
    /\ alerts w' = alerts w
    /\ tokens (state w') = tokens (state w)
    /\ loading (state w') = false
    /\ (network w' = network w \/ exists req, network w' = network w ++ [req]).

(** A home page on which something was shown before and an error is up. *)
Definition stale (P : Platform) (storage : gmap string string)
           (shown : json (number P)) : World P :=
  {| sessionStorage := storage; network := []; location := None; alerts := [];
     console := [];
     state := {| loading := false; tokens := shown; userInfo := shown;
                 discoveryInfo := shown; introspectionResult := shown;
                 error := Some "an earlier error" |} |}.

(** The request [getUserInfo] sends for a given access token. *)
Definition me_request (token : string) : Request :=
  {| url := "/oidc/me"; method := "GET";
     headers := [("Authorization", "Bearer " +:+ token)]; body := None |}.

(** The request [getDiscoveryInfo] sends. *)
Definition discovery_request : Request :=
  {| url := "/oidc/.well-known/openid-configuration"; method := "GET";
     headers := []; body := None |}.

(** An endpoint that gives one fixed answer. *)
Definition answering (status : Z) (body : completion (json Z))
  : Request -> completion (Callback.Response Z) :=
  fun _ => Normal {| Callback.status := status; Callback.json_body := body |}.

(** A [JSON.parse] that knows one text. *)
Definition parse_only (text : string) (value : json Z) : string -> completion (json Z) :=
  fun s => if String.eqb s text then Normal value
           else Throw "Unexpected token in JSON".

(** [{ access_token: new, expires_in: 3600 }] *)
Definition refreshed : json Z :=
  JObject [("access_token", JString "new"); ("expires_in", JNumber 3600)].

(** Session storage after a completed login. *)
Definition logged_in : gmap string string :=
  <["access_token" := "abc"]> (<["id_token" := "def"]> (<["refresh_token" := "ghi"]>
    (<["tokens" := Engine.stringify Run.token_response]> Run.session))).

End HomeProps.

(** FIPS 180-4 / NIST example vectors, each checked by evaluation. *)
Definition hex_digit (d : Z) : Z :=
  nth (Z.to_nat d) (js "0123456789abcdef") 0.

Definition hex (bs : list Z) : jsstring :=
  flat_map (fun b => [hex_digit (Z.shiftr b 4); hex_digit (Z.land b 15)]) bs.

Example digest_empty :
  hex (Sha256.digest []) =
  js "e3b0c44298fc1c149afbf4c8996fb92427ae41e4649b934ca495991b7852b855".
Proof. vm_compute. reflexivity. Qed.

Example digest_abc :
  hex (Sha256.digest (js "abc")) =
  js "ba7816bf8f01cfea414140de5dae2223b00361a396177a9cb410ff61f20015ad".
Proof. vm_compute. reflexivity. Qed.

Example digest_two_blocks :
  hex (Sha256.digest (js "abcdbcdecdefdefgefghfghighijhijkijkljklmklmnlmnomnopnopq")) =
  js "248d6a61d20638b8e5c026930c3e6039a33ce45964ff2167f6ecedd419db06c1".
Proof. vm_compute. reflexivity. Qed.

Example sha256_abc :
  Pkce.sha256 (js "abc") = Some (js "ungWv48Bz-pBQUDeXa4iI7ADYaOWF3qctBD_YfIAFa0").
Proof. vm_compute. reflexivity. Qed.

Example engine_stringify :
  Engine.stringify
    (Js.JObject [("access_token", Js.JString "abc"); ("expires_in", Js.JNumber 3600);
                 ("scopes", Js.JArray [Js.JString "a"; Js.JNull; Js.JBool true])])
  = "{" +:+ Engine.quote "access_token" +:+ ":" +:+ Engine.quote "abc" +:+ ","
        +:+ Engine.quote "expires_in" +:+ ":3600,"
        +:+ Engine.quote "scopes" +:+ ":[" +:+ Engine.quote "a" +:+ ",null,true]}".
Proof. vm_compute. reflexivity. Qed.

Example engine_form_serialize :
  Engine.form_serialize [("redirect_uri", "http://localhost:3000/auth/callback"); ("a b", "~")]
  = "redirect_uri=http%3A%2F%2Flocalhost%3A3000%2Fauth%2Fcallback&a+b=%7E".
Proof. vm_compute. reflexivity. Qed.

(** * Facts about the PKCE helpers *)

Section Bits.
Import Spec.

Lemma land_ones_range (x : Z) (n : Z) :
  0 <= n -> 0 <= Z.land x (Z.ones n) < 2 ^ n.
Proof.
  intros Hn. rewrite Z.land_ones by assumption.
  apply Z.mod_pos_bound. apply Z.pow_pos_nonneg; lia.
Qed.

Lemma lor_range (x y n : Z) :
  0 <= n -> 0 <= x < 2 ^ n -> 0 <= y < 2 ^ n -> 0 <= Z.lor x y < 2 ^ n.
Proof.
  intros Hn [Hx0 Hx] [Hy0 Hy].
  assert (H0 : 0 <= Z.lor x y) by (apply Z.lor_nonneg; split; assumption).
  split; [assumption|].
  destruct (Z.eq_dec (Z.lor x y) 0) as [->|Hne].
  - apply Z.pow_pos_nonneg; lia.
  - assert (Hpos : 0 < n).
    { destruct (Z.eq_dec n 0) as [->|]; [|lia].
      change (2 ^ 0) with 1 in *.
      assert (x = 0) by lia. assert (y = 0) by lia. subst.
      now elim Hne. }
    apply Z.log2_lt_pow2; [lia|].
    rewrite Z.log2_lor by assumption.
    apply Z.max_lub_lt.
    + destruct (Z.eq_dec x 0) as [->|]; [simpl; lia|].
      apply Z.log2_lt_pow2; lia.
    + destruct (Z.eq_dec y 0) as [->|]; [simpl; lia|].
      apply Z.log2_lt_pow2; lia.
Qed.

Lemma shiftr_range (x k n : Z) :
  0 <= k -> 0 <= x < 2 ^ (n + k) -> 0 <= n -> 0 <= Z.shiftr x k < 2 ^ n.
Proof.
  intros Hk [Hx0 Hx] Hn. rewrite Z.shiftr_div_pow2 by assumption.
  assert (0 < 2 ^ k) by (apply Z.pow_pos_nonneg; lia).
  split.
  - apply Z.div_pos; lia.
  - apply Z.div_lt_upper_bound; [assumption|].
    rewrite <- Z.pow_add_r by assumption. rewrite Z.add_comm. assumption.
Qed.

Lemma shiftl_range (x k n : Z) :
  0 <= k -> 0 <= n -> 0 <= x < 2 ^ n -> 0 <= Z.shiftl x k < 2 ^ (n + k).
Proof.
  intros Hk Hn [Hx0 Hx]. rewrite Z.shiftl_mul_pow2 by assumption.
  assert (0 < 2 ^ k) by (apply Z.pow_pos_nonneg; lia).
  rewrite Z.pow_add_r by assumption. nia.
Qed.

Lemma sextet1_range (a : Z) : byte a -> sextet (Browser.sextet1 a).
Proof.
  intros Ha. unfold Browser.sextet1, sextet.
  change 64 with (2 ^ 6). apply shiftr_range; [lia| |lia]. exact Ha.
Qed.

Lemma sextet2_range (a b : Z) : byte b -> sextet (Browser.sextet2 a b).
Proof.
  intros Hb. unfold Browser.sextet2, sextet.
  change 64 with (2 ^ 6). apply lor_range; [lia| |].
  - pose proof (shiftl_range (Z.land a 3) 4 2) as H.
    change 3 with (Z.ones 2) in *.
    specialize (H ltac:(lia) ltac:(lia) (land_ones_range a 2 ltac:(lia))).
    exact H.
  - pose proof (shiftr_range b 4 4 ltac:(lia) Hb ltac:(lia)) as H.
    change (2 ^ 4) with 16 in H. change (2 ^ 6) with 64. lia.
Qed.

Lemma sextet3_range (b c : Z) : byte c -> sextet (Browser.sextet3 b c).
Proof.
  intros Hc. unfold Browser.sextet3, sextet.
  change 64 with (2 ^ 6). apply lor_range; [lia| |].
  - pose proof (shiftl_range (Z.land b 15) 2 4) as H.
    change 15 with (Z.ones 4) in *.
    specialize (H ltac:(lia) ltac:(lia) (land_ones_range b 4 ltac:(lia))).
    exact H.
  - pose proof (shiftr_range c 6 2 ltac:(lia) Hc ltac:(lia)) as H.
    change (2 ^ 2) with 4 in H. change (2 ^ 6) with 64. lia.
Qed.

Lemma sextet4_range (c : Z) : sextet (Browser.sextet4 c).
Proof.
  unfold Browser.sextet4, sextet. change 63 with (Z.ones 6).
  change 64 with (2 ^ 6). apply land_ones_range. lia.
Qed.

Lemma byte_0 : byte 0.
Proof. unfold byte. lia. Qed.

End Bits.

Section Base64.
Import Spec Browser.

(** Induction three bytes at a time, the way the encoders recurse. *)
Lemma list_ind3 {A : Type} (Q : list A -> Prop) :
  Q [] -> (forall a, Q [a]) -> (forall a b, Q [a; b]) ->
  (forall a b c rest, Q rest -> Q (a :: b :: c :: rest)) ->
  forall l, Q l.
Proof.
  intros H0 H1 H2 H3.
  fix IH 1. intros [|a [|b [|c rest]]].
  - exact H0.
  - apply H1.
  - apply H2.
  - apply H3, IH.
Qed.

Lemma Forall_drop3 {A : Type} (Q : A -> Prop) (a b c : A) (rest : list A) :
  Forall Q (a :: b :: c :: rest) -> Forall Q rest.
Proof.
  intros H. do 3 (apply Forall_inv_tail in H). exact H.
Qed.

Lemma replace_all_twice (s : jsstring) :
  replace_all 47 95 (replace_all 43 45 s) = List.map to_url s.
Proof. unfold replace_all. rewrite List.map_map. reflexivity. Qed.

Lemma sextet_table (i : Z) :
  sextet i ->
  to_url (b64 i) = u64 i /\ u64 i <> 61 /\ b64 i <> 61
  /\ is_base64url_char (u64 i) = true /\ u64 i <> 43 /\ u64 i <> 47.
Proof.
  intros [Hlo Hhi].
  assert (Hall : forallb sextet_ok (seq 0 64) = true) by (vm_compute; reflexivity).
  rewrite forallb_forall in Hall.
  specialize (Hall (Z.to_nat i)).
  assert (Hin : In (Z.to_nat i) (seq 0 64)) by (apply in_seq; lia).
  specialize (Hall Hin). unfold sextet_ok in Hall.
  rewrite Z2Nat.id in Hall by assumption.
  repeat (apply andb_prop in Hall; destruct Hall as [Hall ?]).
  repeat match goal with
         | H : negb _ = true |- _ => apply negb_true_iff, Z.eqb_neq in H
         | H : (_ =? _) = true |- _ => apply Z.eqb_eq in H
         end.
  repeat split; assumption.
Qed.

Lemma replace_trailing_cons (x : Z) (s : jsstring) :
  x <> 61 -> replace_trailing 61 (x :: s) = x :: replace_trailing 61 s.
Proof.
  intros Hx. cbn [replace_trailing].
  apply Z.eqb_neq in Hx. rewrite Hx. reflexivity.
Qed.

Ltac sextets :=
  repeat match goal with
         | H : Forall byte (_ :: _) |- _ => inversion H; subst; clear H
         end;
  auto using sextet1_range, sextet2_range, sextet3_range, sextet4_range, byte_0.

(** The three [replace] calls turn [btoa]'s output into unpadded
    base64url, whatever the bytes. *)
Lemma url_of_base64 (bs : list Z) :
  Forall byte bs ->
  replace_trailing 61 (replace_all 47 95 (replace_all 43 45 (base64_encode bs)))
  = base64url bs.
Proof.
  rewrite replace_all_twice.
  induction bs as [|a|a b|a b c rest IH] using list_ind3; intros Hbs.
  - reflexivity.
  - cbn [base64_encode base64url List.map].
    destruct (sextet_table (sextet1 a)) as (-> & ? & _); [sextets|].
    destruct (sextet_table (sextet2 a 0)) as (-> & ? & _); [sextets|].
    rewrite !replace_trailing_cons by assumption. reflexivity.
  - cbn [base64_encode base64url List.map].
    destruct (sextet_table (sextet1 a)) as (-> & ? & _); [sextets|].
    destruct (sextet_table (sextet2 a b)) as (-> & ? & _); [sextets|].
    destruct (sextet_table (sextet3 b 0)) as (-> & ? & _); [sextets|].
    rewrite !replace_trailing_cons by assumption. reflexivity.
  - cbn [base64_encode base64url List.map].
    destruct (sextet_table (sextet1 a)) as (-> & ? & _); [sextets|].
    destruct (sextet_table (sextet2 a b)) as (-> & ? & _); [sextets|].
    destruct (sextet_table (sextet3 b c)) as (-> & ? & _); [sextets|].
    destruct (sextet_table (sextet4 c)) as (-> & ? & _); [sextets|].
    rewrite !replace_trailing_cons by assumption.
    rewrite IH; [reflexivity|].
    eapply Forall_drop3, Hbs.
Qed.

Lemma base64url_chars (bs : list Z) :
  Forall byte bs ->
  Forall (fun ch => is_base64url_char ch = true /\ ch <> 61 /\ ch <> 43 /\ ch <> 47)
         (base64url bs).
Proof.
  induction bs as [|a|a b|a b c rest IH] using list_ind3; intros Hbs;
    cbn [base64url].
  - constructor.
  - repeat constructor; apply sextet_table; sextets.
  - repeat constructor; apply sextet_table; sextets.
  - assert (Hrest : Forall byte rest).
    { eapply Forall_drop3, Hbs. }
    repeat (constructor; [repeat split; apply sextet_table; sextets|]).
    apply IH, Hrest.
Qed.

Lemma base64url_length (bs : list Z) :
  (3 * List.length (base64url bs) = 4 * List.length bs + (2 * List.length bs) mod 3)%nat.
Proof.
  induction bs as [|a|a b|a b c rest IH] using list_ind3.
  - reflexivity.
  - reflexivity.
  - reflexivity.
  - cbn [base64url List.length].
    replace (2 * S (S (S (List.length rest))))%nat
      with (2 * List.length rest + 2 * 3)%nat by lia.
    rewrite Nat.Div0.mod_add. lia.
Qed.

(** With two bytes left over, [btoa] pads with exactly one [=]. *)
Lemma base64_encode_one_pad (bs : list Z) :
  Forall byte bs -> (List.length bs mod 3 = 2)%nat ->
  exists body,
    base64_encode bs = body ++ [pad_char]
    /\ Forall (fun ch => ch <> pad_char) body
    /\ (3 * List.length body = 4 * List.length bs + 1)%nat.
Proof.
  induction bs as [|a|a b|a b c rest IH] using list_ind3; intros Hbs Hlen.
  - discriminate.
  - discriminate.
  - exists [b64 (sextet1 a); b64 (sextet2 a b); b64 (sextet3 b 0)].
    split; [reflexivity|]. split; [|reflexivity].
    repeat constructor; apply sextet_table; sextets.
  - assert (Hrest : Forall byte rest).
    { eapply Forall_drop3, Hbs. }
    destruct (IH Hrest) as (body & Heq & Hbody & Hl).
    { cbn [List.length] in Hlen.
      replace (S (S (S (List.length rest)))) with (List.length rest + 1 * 3)%nat in Hlen by lia.
      rewrite Nat.Div0.mod_add in Hlen. exact Hlen. }
    exists (b64 (sextet1 a) :: b64 (sextet2 a b) :: b64 (sextet3 b c)
              :: b64 (sextet4 c) :: body).
    split; [cbn [base64_encode]; rewrite Heq; reflexivity|].
    split.
    + repeat (constructor; [apply sextet_table; sextets|]). exact Hbody.
    + cbn [List.length]. lia.
Qed.

End Base64.

Section Digest.
Import Spec Browser.

Lemma be_bytes_range (n : nat) (x : Z) : Forall byte (Sha256.be_bytes n x).
Proof.
  unfold Sha256.be_bytes. apply List.Forall_forall. intros b Hb.
  apply in_map_iff in Hb. destruct Hb as (i & <- & _).
  change 255 with (Z.ones 8). change 256 with (2 ^ 8).
  apply land_ones_range. lia.
Qed.

Lemma output_length (st : Sha256.state) : List.length (Sha256.output st) = 32%nat.
Proof. destruct st as [[[[[[[a b] c] d] e] f] g] h]. reflexivity. Qed.

Lemma output_range (st : Sha256.state) : Forall byte (Sha256.output st).
Proof.
  destruct st as [[[[[[[a b] c] d] e] f] g] h]. unfold Sha256.output.
  repeat (apply Forall_app; split); apply be_bytes_range.
Qed.

(** A SHA-256 digest is always 32 bytes. *)
Lemma digest_length (msg : list Z) : List.length (Sha256.digest msg) = 32%nat.
Proof. apply output_length. Qed.

Lemma digest_range (msg : list Z) : Forall byte (Sha256.digest msg).
Proof. apply output_range. Qed.

Lemma fromCharCode_bytes (bs : list Z) :
  Forall byte bs -> String_fromCharCode bs = bs.
Proof.
  unfold String_fromCharCode. induction 1 as [|b bs Hb _ IH]; [reflexivity|].
  cbn [List.map]. rewrite IH. f_equal.
  apply Z.mod_small. unfold byte in Hb. lia.
Qed.

Lemma btoa_bytes (bs : list Z) :
  Forall byte bs -> btoa bs = Some (base64_encode bs).
Proof.
  intros Hbs. unfold btoa.
  replace (forallb _ bs) with true; [reflexivity|].
  symmetry. apply forallb_forall. intros b Hb.
  rewrite List.Forall_forall in Hbs. specialize (Hbs b Hb). unfold byte in Hbs.
  apply andb_true_intro. split; [apply Z.leb_le | apply Z.leb_le]; lia.
Qed.

(** [sha256] never rejects, and its value is the unpadded base64url text
    of the digest. *)
Lemma sha256_unfold (plain : jsstring) :
  Pkce.sha256 plain
  = Some (base64url (Sha256.digest (TextEncoder_encode plain))).
Proof.
  unfold Pkce.sha256, crypto_subtle_digest_SHA256.
  pose proof (digest_range (TextEncoder_encode plain)) as Hd.
  rewrite (fromCharCode_bytes _ Hd), (btoa_bytes _ Hd).
  cbn [mbind option_bind]. rewrite (url_of_base64 _ Hd). reflexivity.
Qed.

(** Code units below U+0080 are their own UTF-8 encoding. *)
Lemma TextEncoder_encode_ascii (s : jsstring) :
  Forall (fun c => c < 128) s -> TextEncoder_encode s = s.
Proof.
  induction 1 as [|c s Hc _ IH]; [reflexivity|].
  cbn [TextEncoder_encode].
  replace (c <? 128) with true by (symmetry; apply Z.ltb_lt; exact Hc).
  rewrite IH. reflexivity.
Qed.

End Digest.

Section Verifier.
Import Spec Browser Pkce.

Lemma getRandomValues_fresh (entropy : nat -> Z) (n : nat) :
  crypto_getRandomValues entropy (new_Uint8Array n)
  = List.map (fun i => entropy i mod 256) (seq 0 n).
Proof.
  unfold crypto_getRandomValues, new_Uint8Array.
  revert entropy. induction n as [|n IH]; intros entropy; [reflexivity|].
  cbn [repeat imap seq List.map]. f_equal.
  rewrite <- seq_shift, List.map_map. apply (IH (fun i => entropy (S i))).
Qed.

Lemma fold_left_append {A : Type} (f : A -> jsstring) (l : list A) (acc : jsstring) :
  fold_left (fun result v => result ++ f v) l acc = acc ++ flat_map f l.
Proof.
  revert acc. induction l as [|x l IH]; intros acc; cbn [fold_left flat_map].
  - rewrite app_nil_r. reflexivity.
  - rewrite IH, <- app_assoc. reflexivity.
Qed.

Lemma charset_length : List.length charset = 66%nat.
Proof. reflexivity. Qed.

Lemma charset_at_mod (v : Z) :
  charset_at (v mod Z.of_nat (List.length charset))
  = [nth (Z.to_nat (v mod 66)) charset 0].
Proof.
  rewrite charset_length. change (Z.of_nat 66) with 66.
  unfold charset_at.
  assert (Hlt : (Z.to_nat (v mod 66) < List.length charset)%nat).
  { rewrite charset_length. pose proof (Z.mod_pos_bound v 66). lia. }
  rewrite (nth_error_nth' charset 0 Hlt). reflexivity.
Qed.

(** Each random byte picks one symbol of [charset], by modulo. *)
Lemma generateRandomString_map (entropy : nat -> Z) (n : nat) :
  generateRandomString entropy n
  = List.map (fun i => nth (Z.to_nat ((entropy i mod 256) mod 66)) charset 0) (seq 0 n).
Proof.
  unfold generateRandomString. rewrite getRandomValues_fresh, fold_left_append.
  cbn [app]. induction (seq 0 n) as [|i l IH]; [reflexivity|].
  cbn [List.map flat_map]. rewrite charset_at_mod, IH. reflexivity.
Qed.

Lemma charset_unreserved (c : Z) : In c charset -> is_unreserved c = true.
Proof.
  assert (Hall : forallb is_unreserved charset = true) by (vm_compute; reflexivity).
  rewrite forallb_forall in Hall. apply Hall.
Qed.

Lemma unreserved_charset (c : Z) : is_unreserved c = true -> In c charset.
Proof.
  intros Hc.
  assert (Hall : forallb (fun n => implb (is_unreserved (Z.of_nat n))
                                     (existsb (Z.eqb (Z.of_nat n)) charset))
                         (seq 0 128) = true) by (vm_compute; reflexivity).
  rewrite forallb_forall in Hall.
  assert (Hrange : 0 <= c < 128).
  { unfold is_unreserved in Hc.
    repeat match goal with
           | H : (_ || _) = true |- _ => apply orb_prop in H; destruct H as [H|H]
           | H : (_ && _) = true |- _ => apply andb_prop in H; destruct H
           end;
    repeat match goal with
           | H : (_ <=? _) = true |- _ => apply Z.leb_le in H
           | H : (_ =? _) = true |- _ => apply Z.eqb_eq in H
           end; lia. }
  specialize (Hall (Z.to_nat c)). rewrite Z2Nat.id in Hall by lia.
  rewrite Hc in Hall. cbn [implb] in Hall.
  assert (Hex : existsb (Z.eqb c) charset = true) by (apply Hall, in_seq; lia).
  apply existsb_exists in Hex. destruct Hex as (x & Hx & Heq).
  apply Z.eqb_eq in Heq. subst. exact Hx.
Qed.

Lemma charset_nth (i : nat) : (i < 66)%nat -> In (nth i charset 0) charset.
Proof. intros Hi. apply nth_In. rewrite charset_length. exact Hi. Qed.

Lemma generateRandomString_chars (entropy : nat -> Z) (n : nat) :
  Forall (fun c => In c charset) (generateRandomString entropy n).
Proof.
  rewrite generateRandomString_map. apply List.Forall_forall. intros c Hc.
  apply in_map_iff in Hc. destruct Hc as (i & <- & _).
  apply charset_nth. pose proof (Z.mod_pos_bound (entropy i mod 256) 66). lia.
Qed.

Lemma unreserved_below_128 (c : Z) : is_unreserved c = true -> c < 128.
Proof.
  intros Hc. apply unreserved_charset in Hc.
  assert (Hall : forallb (fun x => x <? 128) charset = true) by (vm_compute; reflexivity).
  rewrite forallb_forall in Hall. apply Z.ltb_lt, Hall, Hc.
Qed.

End Verifier.

(** * Facts about the callback page *)

Section CallbackFacts.
Import Js Callback.
Context (P : Platform) (server : Request -> completion (Response (number P))).

Ltac run_page :=
  unfold exchange, visit, useEffect, exchangeCodeForTokens, try_catch_finally, bind, lift,
    fetch, throw, ret, sessionStorage_getItem, sessionStorage_setItem, setError,
    setExchanging, console_error, setTimeout_router_push, mount, load_verifier, failed;
  cbn.

Lemma truthy_Some (s : string) : s <> EmptyString -> truthy (Some s) = true.
Proof.
  intros Hs. unfold truthy. apply negb_true_iff, String.eqb_neq, Hs.
Qed.

Lemma eqb_nonempty (s : string) : s <> EmptyString -> String.eqb s EmptyString = false.
Proof. intros Hs. apply String.eqb_neq, Hs. Qed.

Lemma null_or_not (data : json (number P)) : data = JNull \/ data <> JNull.
Proof. destruct data; (left; reflexivity) || (right; discriminate). Qed.

Lemma Get_property (data : json (number P)) (name : string) :
  data <> JNull -> Get P data name = Normal (property P data name).
Proof. unfold property. destruct data; intros Hd; [congruence | reflexivity..]. Qed.

Lemma truthy_inv (o : option string) :
  truthy o = true -> exists s, o = Some s /\ s <> EmptyString.
Proof.
  destruct o as [s|]; [|discriminate]. intros H. exists s. split; [reflexivity|].
  apply String.eqb_neq, negb_true_iff, H.
Qed.

(** No usable verifier: thrown before [fetch]. *)
Lemma exchange_no_verifier (code : string) (storage : gmap string string) :
  truthy (storage !! "code_verifier") = false ->
  exchange P server code storage = failed storage [] missing_verifier.
Proof.
  intros H. run_page. rewrite H. reflexivity.
Qed.

Section WithVerifier.
Context (code verifier : string) (storage : gmap string string).
Hypothesis Hstored : storage !! "code_verifier" = Some verifier.
Hypothesis Hnonempty : verifier <> EmptyString.

Let request := token_request P code verifier.

(** [fetch] itself rejects. *)
Lemma exchange_transport_failure (message : string) :
  server request = Throw message ->
  exchange P server code storage = failed storage [request] message.
Proof.
  intros Hs. run_page. rewrite Hstored. cbn.
  rewrite (eqb_nonempty _ Hnonempty). cbn. fold request. rewrite Hs. reflexivity.
Qed.

(** A non-2xx answer. *)
Lemma exchange_rejected (resp : Response (number P)) :
  server request = Normal resp -> ok resp = false ->
  exchange P server code storage
  = failed storage [request] (rejection_message P resp).
Proof.
  intros Hs Hok. run_page. rewrite Hstored. cbn.
  rewrite (eqb_nonempty _ Hnonempty). cbn. fold request. rewrite Hs. cbn.
  rewrite Hok. cbn. unfold rejection_message, property.
  destruct (json_body resp) as [data|message]; [|reflexivity].
  destruct data; cbn;
    try match goal with
        | |- context [ToBoolean P ?d] => destruct (ToBoolean P d)
        end; cbn;
    try match goal with
        | |- context [ToString P ?d] => destruct (ToString P d)
        end; reflexivity.
Qed.

(** A 2xx answer whose body is not JSON. *)
Lemma exchange_unparseable (resp : Response (number P)) (message : string) :
  server request = Normal resp -> ok resp = true ->
  json_body resp = Throw message ->
  exchange P server code storage = failed storage [request] message.
Proof.
  intros Hs Hok Hj. run_page. rewrite Hstored. cbn.
  rewrite (eqb_nonempty _ Hnonempty). cbn. fold request. rewrite Hs. cbn.
  rewrite Hok. cbn. rewrite Hj. reflexivity.
Qed.

(** A 2xx answer whose body is the JSON text [null]. *)
Lemma exchange_null_body (resp : Response (number P)) :
  server request = Normal resp -> ok resp = true ->
  json_body resp = Normal JNull ->
  exchange P server code storage
  = failed storage [request] (null_property_message P "access_token").
Proof.
  intros Hs Hok Hj. run_page. rewrite Hstored. cbn.
  rewrite (eqb_nonempty _ Hnonempty). cbn. fold request. rewrite Hs. cbn.
  rewrite Hok. cbn. rewrite Hj. reflexivity.
Qed.

(** A 2xx answer with any other JSON body. *)
Lemma exchange_written (resp : Response (number P)) (data : json (number P)) :
  server request = Normal resp -> ok resp = true ->
  json_body resp = Normal data -> data <> JNull ->
  exchange P server code storage = written request (write_tokens P data storage).
Proof.
  intros Hs Hok Hj Hdata. run_page. rewrite Hstored. cbn.
  rewrite (eqb_nonempty _ Hnonempty). cbn. fold request. rewrite Hs. cbn.
  rewrite Hok. cbn. rewrite Hj. cbn. rewrite !(Get_property data) by assumption.
  unfold written, write_tokens. cbn.
  destruct (ToString P (property P data "access_token")); cbn; [|reflexivity].
  destruct (ToString P (property P data "id_token")); cbn; [|reflexivity].
  destruct (ToBoolean P (property P data "refresh_token")); cbn; [|reflexivity].
  destruct (ToString P (property P data "refresh_token")); reflexivity.
Qed.

End WithVerifier.

(** The 2xx branch writes no key but the four token keys. *)
Lemma write_tokens_frame (data : json (number P)) (storage : gmap string string)
      (key : string) :
  key <> "access_token" -> key <> "id_token" ->
  key <> "refresh_token" -> key <> "tokens" ->
  fst (write_tokens P data storage) !! key = storage !! key.
Proof.
  intros Ha Hi Hr Ht. unfold write_tokens.
  destruct (ToString P (property P data "access_token")); [|reflexivity].
  destruct (ToString P (property P data "id_token")); cbn;
    [|rewrite lookup_insert_ne by congruence; reflexivity].
  destruct (ToBoolean P (property P data "refresh_token"));
    [destruct (ToString P (property P data "refresh_token"))|]; cbn;
    repeat (rewrite lookup_insert_ne by congruence); reflexivity.
Qed.

Lemma written_storage (request : Request)
      (result : gmap string string * option string) :
  sessionStorage (written request result) = fst result.
Proof. unfold written. destruct (snd result); reflexivity. Qed.

Lemma written_network (request : Request)
      (result : gmap string string * option string) :
  network (written request result) = [request].
Proof. unfold written. destruct (snd result); reflexivity. Qed.

Lemma exchange_settles (code : string) (storage : gmap string string) :
  settles P server code storage (exchange P server code storage).
Proof.
  destruct (truthy (storage !! "code_verifier")) eqn:Hv.
  - apply truthy_inv in Hv. destruct Hv as (verifier & Hv & Hne).
    destruct (server (token_request P code verifier)) as [resp|message] eqn:Hs.
    + destruct (ok resp) eqn:Hok.
      * destruct (json_body resp) as [data|message] eqn:Hj.
        -- destruct (null_or_not data) as [->|Hdata].
           ++ rewrite (exchange_null_body _ _ _ Hv Hne _ Hs Hok Hj). constructor.
           ++ rewrite (exchange_written _ _ _ Hv Hne _ _ Hs Hok Hj Hdata).
              econstructor; eassumption.
        -- rewrite (exchange_unparseable _ _ _ Hv Hne _ _ Hs Hok Hj). constructor.
      * rewrite (exchange_rejected _ _ _ Hv Hne _ Hs Hok). constructor.
    + rewrite (exchange_transport_failure _ _ _ Hv Hne _ Hs). constructor.
  - rewrite (exchange_no_verifier _ _ Hv). constructor.
Qed.

End CallbackFacts.

(** * The claims about [src/app/page.tsx] *)

Section PkceClaims.
Import Spec Browser Pkce.

(** C1: for every verifier string, [sha256] settles to the unpadded base64url
  encoding (RFC 4648 section 5: the alphabet with - and _ for + and /, no
  trailing =) of the SHA-256 digest of the string's UTF-8 bytes; for a
  generated verifier those bytes are its ASCII codes. *)
Theorem sha256_base64url_of_digest :
(forall plain : jsstring,
   sha256 plain = Some (base64url (Sha256.digest (TextEncoder_encode plain))))
/\ (forall entropy : nat -> Z,
      TextEncoder_encode (codeVerifier entropy) = codeVerifier entropy).
Proof.
split.
- intros plain. apply sha256_unfold.
- intros entropy. apply TextEncoder_encode_ascii.
  eapply List.Forall_impl; [|apply generateRandomString_chars].
  intros c Hc. cbn beta in Hc. apply unreserved_below_128, charset_unreserved, Hc.
Qed.

(** C2: on the verifier of RFC 7636 appendix B, [sha256] returns exactly the
  challenge E9Melhoa2OwvFrEMTJguCHaoeK1t8URWbuGJSstw-cM. *)
Theorem sha256_rfc7636 :
sha256 (js "dBjftJeZ4CVP-mB92K27uhbUJU1p1r_wW1gFWFOEjXk")
= Some (js "E9Melhoa2OwvFrEMTJguCHaoeK1t8URWbuGJSstw-cM").
Proof. vm_compute. reflexivity. Qed.

(** C7: the verifier [startAuthFlow] generates, [generateRandomString(128)],
  has exactly 128 characters (within 43..128); every character is one of the
  66 distinct symbols of [charset], which are exactly the unreserved
  characters A-Z a-z 0-9 - . _ ~; and the i-th character is the symbol the
  i-th random byte selects modulo 66. *)
Theorem codeVerifier_shape (entropy : nat -> Z) :
let verifier := codeVerifier entropy in
List.length verifier = 128%nat
/\ (43 <= List.length verifier <= 128)%nat
/\ Forall (fun c => In c charset /\ is_unreserved c = true) verifier
/\ List.length charset = 66%nat
/\ NoDup charset
/\ (forall c, is_unreserved c = true <-> In c charset)
/\ verifier
   = List.map (fun i => nth (Z.to_nat ((entropy i mod 256) mod 66)) charset 0)
              (seq 0 128).
Proof.
cbv zeta. unfold codeVerifier.
assert (Hlen : List.length (generateRandomString entropy 128) = 128%nat).
{ rewrite generateRandomString_map, List.length_map, List.length_seq. reflexivity. }
rewrite Hlen.
split; [reflexivity|]. split; [lia|]. split; [|split; [reflexivity|]; split; [|split; [split|]]].
- eapply List.Forall_impl; [|apply generateRandomString_chars].
  intros c Hc. cbn beta in Hc. split; [exact Hc | apply charset_unreserved, Hc].
- apply (bool_decide_unpack _). vm_compute. exact I.
- apply unreserved_charset.
- apply charset_unreserved.
- apply generateRandomString_map.
Qed.

(** C10: for every input string, [sha256] settles to a string of exactly 43
  characters, all of the base64url alphabet (A-Z a-z 0-9 - _), none of
  them =, + or /: the digest has 32 bytes, and [btoa] of it is 44
  characters of which exactly the last is =. *)
Theorem sha256_output_shape (plain : jsstring) :
exists out body : jsstring,
  sha256 plain = Some out
  /\ List.length out = 43%nat
  /\ Forall (fun ch => is_base64url_char ch = true) out
  /\ ~ In 61 out /\ ~ In 43 out /\ ~ In 47 out
  /\ List.length (crypto_subtle_digest_SHA256 (TextEncoder_encode plain)) = 32%nat
  /\ btoa (String_fromCharCode (crypto_subtle_digest_SHA256 (TextEncoder_encode plain)))
     = Some (body ++ [61])
  /\ List.length body = 43%nat
  /\ ~ In 61 body.
Proof.
unfold crypto_subtle_digest_SHA256.
set (hash := Sha256.digest (TextEncoder_encode plain)).
assert (Hrange : Forall byte hash) by apply digest_range.
assert (Hlen : List.length hash = 32%nat) by apply digest_length.
destruct (base64_encode_one_pad hash Hrange) as (body & Hbody & Hnopad & Hblen).
{ rewrite Hlen. reflexivity. }
pose proof (base64url_chars hash Hrange) as Hchars.
pose proof (base64url_length hash) as Hout.
rewrite Hlen in Hout, Hblen. cbn in Hout.
rewrite List.Forall_forall in Hchars.
exists (base64url hash), body. split; [apply sha256_unfold|].
split; [lia|].
split; [apply List.Forall_forall; intros ch Hch; apply (Hchars ch Hch)|].
split; [intros Hin; destruct (Hchars _ Hin) as (_ & H & _); now apply H|].
split; [intros Hin; destruct (Hchars _ Hin) as (_ & _ & H & _); now apply H|].
split; [intros Hin; destruct (Hchars _ Hin) as (_ & _ & _ & H); now apply H|].
split; [exact Hlen|].
split; [rewrite (fromCharCode_bytes _ Hrange), (btoa_bytes _ Hrange), Hbody; reflexivity|].
split; [lia|].
intros Hin. rewrite List.Forall_forall in Hnopad. apply (Hnopad _ Hin). reflexivity.
Qed.

End PkceClaims.

(** * The claims about the callback page *)

Section CallbackClaims.
Import Js Callback.

(** C3, as stated, fails: after a successful exchange, and after a rejected
  one, the verifier is still in session storage and [load_verifier]
  returns it. *)
Lemma exchange_leaves_verifier_example :
load_verifier (Run.exchange 200 (Normal Run.token_response) Run.session)
= Some Run.verifier
/\ error (Run.exchange 200 (Normal Run.token_response) Run.session) = None
/\ load_verifier (Run.exchange 400 (Normal Run.invalid_grant) Run.session)
   = Some Run.verifier
/\ error (Run.exchange 400 (Normal Run.invalid_grant) Run.session)
   = Some "Token exchange failed".
Proof. vm_compute. repeat split; reflexivity. Qed.

(** C3, amended: an exchange attempt, whether it succeeds or fails, leaves
  the stored code verifier as it was: a later load returns what a load
  before the attempt would have returned. *)
Theorem exchange_keeps_verifier
      (P : Platform) (server : Request -> completion (Response (number P)))
      (code : string) (storage : gmap string string) :
load_verifier (exchange P server code storage) = load_verifier (mount storage).
Proof.
destruct (exchange_settles P server code storage).
- reflexivity.
- unfold load_verifier. rewrite written_storage.
  apply write_tokens_frame; discriminate.
Qed.

(** C4: with no code verifier in session storage, the exchange fails with
  the error [Code verifier not found. ...] and dispatches no request at
  all; nothing is stored and no redirect is scheduled. *)
Theorem exchange_missing_verifier
      (P : Platform) (server : Request -> completion (Response (number P)))
      (code : string) (storage : gmap string string) :
load_verifier (mount storage) = None ->
let after := exchange P server code storage in
error after = Some missing_verifier
/\ network after = []
/\ sessionStorage after = storage
/\ timers after = []
/\ exchanging after = false.
Proof.
intros Hnone. cbv zeta. rewrite exchange_no_verifier.
- repeat split.
- unfold load_verifier, mount in Hnone. cbn in Hnone. rewrite Hnone. reflexivity.
Qed.

Lemma exchange_missing_verifier_witness :
load_verifier (mount Run.no_session) = None
/\ error (Run.exchange 200 (Normal Run.token_response) Run.no_session)
   = Some missing_verifier
/\ network (Run.exchange 200 (Normal Run.token_response) Run.no_session) = []
/\ sessionStorage (Run.exchange 200 (Normal Run.token_response) Run.no_session)
   = Run.no_session
/\ timers (Run.exchange 200 (Normal Run.token_response) Run.no_session) = []
/\ exchanging (Run.exchange 200 (Normal Run.token_response) Run.no_session) = false.
Proof.
split; [reflexivity|].
apply (exchange_missing_verifier Engine.platform
         (Engine.answering 200 (Normal Run.token_response)) Run.code Run.no_session).
reflexivity.
Defined.

(** C5, as stated, fails: HTTP 200 with the body [{}], valid JSON without
  [access_token], is taken as a success: no error is set, the text
  undefined is stored as the access token, and the redirect home is
  scheduled. *)
Lemma exchange_accepts_empty_object_example :
ok {| status := 200; json_body := Normal Run.empty_object |} = true
/\ property Engine.platform Run.empty_object "access_token" = None
/\ error (Run.exchange 200 (Normal Run.empty_object) Run.session) = None
/\ sessionStorage (Run.exchange 200 (Normal Run.empty_object) Run.session)
     !! "access_token" = Some "undefined"
/\ sessionStorage (Run.exchange 200 (Normal Run.empty_object) Run.session)
     !! "tokens" = Some "{}"
/\ timers (Run.exchange 200 (Normal Run.empty_object) Run.session) = [(1500, "/")].
Proof. vm_compute. repeat split; reflexivity. Qed.

(** C5, amended: when the token endpoint answers 2xx, the exchange fails
    with the parser's message if the body is not valid JSON, and with the
    engine's TypeError if the body is the JSON value null, storing nothing
    in either case.  On every other JSON body it checks no field: with or
    without an [access_token] member it stores, in this order, the string
    form of [access_token] (the text undefined for an absent member), the
    string form of [id_token], the string form of [refresh_token] when that
    is truthy, and the serialized body under [tokens], then schedules the
    redirect.  It fails there only if one of these values has no string
    form; the values before it are stored by then. *)
Theorem exchange_2xx
        (P : Platform) (server : Request -> completion (Response (number P)))
        (code verifier : string) (storage : gmap string string)
        (resp : Response (number P)) :
  storage !! "code_verifier" = Some verifier ->
  verifier <> EmptyString ->
  server (token_request P code verifier) = Normal resp ->
  ok resp = true ->
  let after := exchange P server code storage in
  (forall syntax_error,
      json_body resp = Throw syntax_error ->
      error after = Some syntax_error /\ sessionStorage after = storage)
  /\ (json_body resp = Normal JNull ->
      error after = Some (null_property_message P "access_token")
      /\ sessionStorage after = storage)
  /\ ToString P None = Normal "undefined"
  /\ (forall tokenData,
        json_body resp = Normal tokenData ->
        tokenData <> JNull ->
        match ToString P (property P tokenData "access_token") with
        | Throw type_error =>
            error after = Some type_error /\ sessionStorage after = storage
        | Normal access_text =>
            match ToString P (property P tokenData "id_token") with
            | Throw type_error =>
                error after = Some type_error
                /\ sessionStorage after = <["access_token" := access_text]> storage
            | Normal id_text =>
                if ToBoolean P (property P tokenData "refresh_token") then
                  match ToString P (property P tokenData "refresh_token") with
                  | Throw type_error =>
                      error after = Some type_error
                      /\ sessionStorage after
                         = <["id_token" := id_text]>
                             (<["access_token" := access_text]> storage)
                  | Normal refresh_text =>
                      error after = None
                      /\ sessionStorage after
                         = <["tokens" := JSON_stringify P tokenData]>
                             (<["refresh_token" := refresh_text]>
                                (<["id_token" := id_text]>
                                   (<["access_token" := access_text]> storage)))
                      /\ timers after = [(1500, "/")]
                  end
                else
                  error after = None
                  /\ sessionStorage after
                     = <["tokens" := JSON_stringify P tokenData]>
                         (<["id_token" := id_text]>
                            (<["access_token" := access_text]> storage))
                  /\ timers after = [(1500, "/")]
            end
        end).
Proof.
  intros Hv Hne Hs Hok. cbv zeta.
  split; [|split; [|split; [reflexivity|]]].
  - intros syntax_error Hj.
    rewrite (exchange_unparseable P server code verifier storage Hv Hne resp _ Hs Hok Hj).
    split; reflexivity.
  - intros Hj.
    rewrite (exchange_null_body P server code verifier storage Hv Hne resp Hs Hok Hj).
    split; reflexivity.
  - intros tokenData Hj Hdata.
    rewrite (exchange_written P server code verifier storage Hv Hne resp tokenData
               Hs Hok Hj Hdata).
    unfold written, write_tokens.
    destruct (ToString P (property P tokenData "access_token")); cbn;
      [|split; reflexivity].
    destruct (ToString P (property P tokenData "id_token")); cbn;
      [|split; reflexivity].
    destruct (ToBoolean P (property P tokenData "refresh_token")); cbn;
      [|repeat split].
    destruct (ToString P (property P tokenData "refresh_token")); cbn; repeat split.
Qed.

Lemma exchange_2xx_witness :
  Run.session !! "code_verifier" = Some Run.verifier
  /\ Run.verifier <> EmptyString
  /\ ok {| status := 200; json_body := Normal Run.token_response |} = true
  /\ error (Run.exchange 200 (Normal Run.token_response) Run.session) = None
  /\ sessionStorage (Run.exchange 200 (Normal Run.token_response) Run.session)
     = <["tokens" := Engine.stringify Run.token_response]>
         (<["id_token" := "def"]> (<["access_token" := "abc"]> Run.session))
  /\ timers (Run.exchange 200 (Normal Run.token_response) Run.session) = [(1500, "/")].
Proof.
  split; [reflexivity|]. split; [discriminate|]. split; [reflexivity|].
  pose proof (exchange_2xx Engine.platform
                (Engine.answering 200 (Normal Run.token_response))
                Run.code Run.verifier Run.session
                {| status := 200; json_body := Normal Run.token_response |}
                eq_refl ltac:(discriminate) eq_refl eq_refl)
    as (_ & _ & _ & Hbody).
  exact (Hbody Run.token_response eq_refl ltac:(discriminate)).
Defined.

(** C6, as stated, fails: on HTTP 400 with the body [{ error: invalid_grant }]
  the failure the page reports is the generic [Token exchange failed];
  neither the error state nor the console line carries invalid_grant. *)
Lemma exchange_drops_error_code_example :
ok {| status := 400; json_body := Normal Run.invalid_grant |} = false
/\ error (Run.exchange 400 (Normal Run.invalid_grant) Run.session)
   = Some "Token exchange failed"
/\ console (Run.exchange 400 (Normal Run.invalid_grant) Run.session)
   = ["Token exchange error: Token exchange failed"]
/\ Run.occurs "invalid_grant" "Token exchange error: Token exchange failed" = false.
Proof. vm_compute. repeat split; reflexivity. Qed.

(** C6, amended: when the token endpoint answers with a non-2xx status, the
    exchange fails after exactly one request (it is never retried), stores
    nothing and schedules no redirect.  The error it reports is the string
    form of the upstream [error_description] when that member is present
    and truthy, else the generic [Token exchange failed]; the upstream
    [error] member is never carried, so a body [{ error: invalid_grant }]
    yields the generic message.  (The engine's own message is reported
    instead when the body is not JSON or is null, or when a truthy
    [error_description] has no string form.) *)
Theorem exchange_non_2xx
        (P : Platform) (server : Request -> completion (Response (number P)))
        (code verifier : string) (storage : gmap string string)
        (resp : Response (number P)) :
  storage !! "code_verifier" = Some verifier ->
  verifier <> EmptyString ->
  server (token_request P code verifier) = Normal resp ->
  ok resp = false ->
  let after := exchange P server code storage in
  network after = [token_request P code verifier]
  /\ sessionStorage after = storage
  /\ timers after = []
  /\ match json_body resp with
     | Throw syntax_error => error after = Some syntax_error
     | Normal JNull =>
         error after = Some (null_property_message P "error_description")
     | Normal errorData =>
         if ToBoolean P (property P errorData "error_description")
         then match ToString P (property P errorData "error_description") with
              | Normal description => error after = Some description
              | Throw type_error => error after = Some type_error
              end
         else error after = Some "Token exchange failed"
     end
  /\ (forall members,
        json_body resp = Normal (JObject members) ->
        member P "error_description" members = None ->
        error after = Some "Token exchange failed")
  /\ (forall members description,
        json_body resp = Normal (JObject members) ->
        member P "error_description" members = Some (JString description) ->
        description <> EmptyString ->
        error after = Some description).
Proof.
  intros Hv Hne Hs Hok. cbv zeta.
  rewrite (exchange_rejected P server code verifier storage Hv Hne resp Hs Hok).
  cbn [network sessionStorage timers error failed].
  split; [reflexivity|]. split; [reflexivity|]. split; [reflexivity|].
  unfold rejection_message. split; [|split].
  - destruct (json_body resp) as [[]|]; try reflexivity;
      match goal with
      | |- context [ToBoolean P ?d] => destruct (ToBoolean P d)
      end; try reflexivity;
      match goal with
      | |- context [ToString P ?d] => destruct (ToString P d)
      end; reflexivity.
  - intros members -> Hnone. unfold property. cbn [Get]. rewrite Hnone. reflexivity.
  - intros members description -> Hsome Hd. unfold property. cbn [Get]. rewrite Hsome.
    cbn. rewrite (eqb_nonempty _ Hd). reflexivity.
Qed.

Lemma exchange_non_2xx_witness :
  Run.session !! "code_verifier" = Some Run.verifier
  /\ Run.verifier <> EmptyString
  /\ ok {| status := 400; json_body := Normal Run.invalid_grant |} = false
  /\ network (Run.exchange 400 (Normal Run.invalid_grant) Run.session)
     = [token_request Engine.platform Run.code Run.verifier]
  /\ sessionStorage (Run.exchange 400 (Normal Run.invalid_grant) Run.session)
     = Run.session
  /\ timers (Run.exchange 400 (Normal Run.invalid_grant) Run.session) = []
  /\ error (Run.exchange 400 (Normal Run.invalid_grant) Run.session)
     = Some "Token exchange failed".
Proof.
  split; [reflexivity|]. split; [discriminate|]. split; [reflexivity|].
  pose proof (exchange_non_2xx Engine.platform
                (Engine.answering 400 (Normal Run.invalid_grant))
                Run.code Run.verifier Run.session
                {| status := 400; json_body := Normal Run.invalid_grant |}
                eq_refl ltac:(discriminate) eq_refl eq_refl)
    as (Hn & Hs & Ht & He & _).
  repeat split; assumption.
Defined.

Example exchange_odd_description :
  error (Run.exchange 400 (Normal Run.odd_description) Run.session)
  = Some "Cannot convert object to primitive value".
Proof. vm_compute. reflexivity. Qed.




(** C9, as stated, fails: on HTTP 200 with the body
    [{ access_token: abc, id_token: { toString: 1 } }] the exchange fails
    (converting [id_token] to a string throws) after [access_token] has
    been stored: the execution ends with an error set, no redirect, and part
    of the token set in session storage.  And on HTTP 200 with the body [{}]
    token values are persisted although nothing in the body was validated. *)
Lemma exchange_partial_write_example :
  ok {| status := 200; json_body := Normal Run.odd_id_token |} = true
  /\ error (Run.exchange 200 (Normal Run.odd_id_token) Run.session)
     = Some "Cannot convert object to primitive value"
  /\ timers (Run.exchange 200 (Normal Run.odd_id_token) Run.session) = []
  /\ Run.session !! "access_token" = None
  /\ sessionStorage (Run.exchange 200 (Normal Run.odd_id_token) Run.session)
       !! "access_token" = Some "abc"
  /\ sessionStorage (Run.exchange 200 (Normal Run.odd_id_token) Run.session)
       !! "id_token" = None
  /\ sessionStorage (Run.exchange 200 (Normal Run.odd_id_token) Run.session)
       !! "tokens" = None
  /\ error (Run.exchange 200 (Normal Run.empty_object) Run.session) = None
  /\ sessionStorage (Run.exchange 200 (Normal Run.empty_object) Run.session)
       !! "access_token" = Some "undefined".
Proof. vm_compute. repeat split; reflexivity. Qed.

(** C9, amended: an exchange that fails because the verifier is missing,
    because the endpoint gave no answer or a non-2xx answer, or because a
    2xx body is not valid JSON or is null, writes nothing to session
    storage.  Session storage changes only after a 2xx answer whose body
    parsed to a JSON value other than null and whose [access_token] has a
    string form; the body is not validated beyond that. *)
Theorem exchange_stores_only_after_parsed_2xx
        (P : Platform) (server : Request -> completion (Response (number P)))
        (code : string) (storage : gmap string string) :
  let after := exchange P server code storage in
  (truthy (storage !! "code_verifier") = false ->
   error after = Some missing_verifier /\ sessionStorage after = storage)
  /\ (forall verifier,
        storage !! "code_verifier" = Some verifier ->
        verifier <> EmptyString ->
        (forall message,
            server (token_request P code verifier) = Throw message ->
            error after = Some message /\ sessionStorage after = storage)
        /\ (forall resp,
              server (token_request P code verifier) = Normal resp ->
              (ok resp = false ->
               (exists message, error after = Some message)
               /\ sessionStorage after = storage)
              /\ (forall syntax_error,
                    ok resp = true ->
                    json_body resp = Throw syntax_error ->
                    error after = Some syntax_error /\ sessionStorage after = storage)
              /\ (ok resp = true ->
                  json_body resp = Normal JNull ->
                  (exists message, error after = Some message)
                  /\ sessionStorage after = storage)))
  /\ (sessionStorage after <> storage ->
      exists verifier resp tokenData access_text,
        storage !! "code_verifier" = Some verifier
        /\ server (token_request P code verifier) = Normal resp
        /\ ok resp = true
        /\ json_body resp = Normal tokenData
        /\ tokenData <> JNull
        /\ ToString P (property P tokenData "access_token") = Normal access_text).
Proof.
  cbv zeta. split; [|split].
  - intros Hv. rewrite (exchange_no_verifier P server code storage Hv).
    split; reflexivity.
  - intros verifier Hv Hne. split.
    + intros message Hs.
      rewrite (exchange_transport_failure P server code verifier storage Hv Hne _ Hs).
      split; reflexivity.
    + intros resp Hs. split; [|split].
      * intros Hok.
        rewrite (exchange_rejected P server code verifier storage Hv Hne _ Hs Hok).
        split; [eexists|]; reflexivity.
      * intros syntax_error Hok Hj.
        rewrite (exchange_unparseable P server code verifier storage Hv Hne _ _ Hs Hok Hj).
        split; reflexivity.
      * intros Hok Hj.
        rewrite (exchange_null_body P server code verifier storage Hv Hne _ Hs Hok Hj).
        split; [eexists|]; reflexivity.
  - destruct (exchange_settles P server code storage)
      as [requests failure|verifier resp tokenData Hv Hne Hs Hok Hj Hdata].
    + intros Hchanged. now elim Hchanged.
    + rewrite written_storage. intros Hchanged.
      destruct (ToString P (property P tokenData "access_token"))
        as [access_text|type_error] eqn:Haccess.
      * exists verifier, resp, tokenData, access_text. repeat split; assumption.
      * elim Hchanged. unfold write_tokens. rewrite Haccess. reflexivity.
Qed.

Lemma exchange_stores_only_after_parsed_2xx_witness :
  Run.session !! "code_verifier" = Some Run.verifier
  /\ Run.verifier <> EmptyString
  /\ error (Run.exchange 200 (Throw "Unexpected token < in JSON at position 0") Run.session)
     = Some "Unexpected token < in JSON at position 0"
  /\ sessionStorage
       (Run.exchange 200 (Throw "Unexpected token < in JSON at position 0") Run.session)
     = Run.session.
Proof.
  split; [reflexivity|]. split; [discriminate|].
  pose proof (exchange_stores_only_after_parsed_2xx Engine.platform
                (Engine.answering 200 (Throw "Unexpected token < in JSON at position 0"))
                Run.code Run.session) as (_ & Hfail & _).
  destruct (Hfail Run.verifier eq_refl ltac:(discriminate)) as (_ & Hresp).
  destruct (Hresp {| status := 200;
                     json_body := Throw "Unexpected token < in JSON at position 0" |}
                  eq_refl) as (_ & Hparse & _).
  exact (Hparse "Unexpected token < in JSON at position 0" eq_refl eq_refl).
Defined.

End CallbackClaims.

(** * More about the PKCE helpers of [src/app/page.tsx] *)

Section PkceMore.
Import Spec Browser Pkce Decode.

Lemma all_byte_pairs_spec (f : Z -> Z -> bool) :
  all_byte_pairs f = true -> forall a b, byte a -> byte b -> f a b = true.
Proof.
  unfold all_byte_pairs. intros Hall a b Ha Hb. unfold byte in Ha, Hb.
  rewrite forallb_forall in Hall.
  specialize (Hall (Z.to_nat a) ltac:(apply in_seq; lia)).
  rewrite forallb_forall in Hall.
  specialize (Hall (Z.to_nat b) ltac:(apply in_seq; lia)).
  rewrite !Z2Nat.id in Hall by lia. exact Hall.
Qed.

Lemma byte1_sextets (a b : Z) :
  byte a -> byte b -> byte1 (sextet1 a) (sextet2 a b) = a.
Proof.
  intros Ha Hb. apply Z.eqb_eq.
  apply (all_byte_pairs_spec (fun a b => byte1 (sextet1 a) (sextet2 a b) =? a));
    [vm_compute; reflexivity | assumption | assumption].
Qed.

Lemma byte2_sextets (a b c : Z) :
  byte a -> byte b -> byte c -> byte2 (sextet2 a b) (sextet3 b c) = b.
Proof.
  intros Ha Hb Hc. unfold byte2.
  assert (H2 : Z.land (sextet2 a b) 15 = Z.shiftr b 4).
  { apply Z.eqb_eq.
    apply (all_byte_pairs_spec (fun a b => Z.land (sextet2 a b) 15 =? Z.shiftr b 4));
      [vm_compute; reflexivity | assumption | assumption]. }
  assert (H3 : Z.shiftr (sextet3 b c) 2 = Z.land b 15).
  { apply Z.eqb_eq.
    apply (all_byte_pairs_spec (fun b c => Z.shiftr (sextet3 b c) 2 =? Z.land b 15));
      [vm_compute; reflexivity | assumption | assumption]. }
  rewrite H2, H3. apply Z.eqb_eq.
  apply (all_byte_pairs_spec
           (fun b _ => Z.lor (Z.shiftl (Z.shiftr b 4) 4) (Z.land b 15) =? b)
           ltac:(vm_compute; reflexivity) b 0 Hb byte_0).
Qed.

Lemma byte3_sextets (b c : Z) :
  byte b -> byte c -> byte3 (sextet3 b c) (sextet4 c) = c.
Proof.
  intros Hb Hc. apply Z.eqb_eq.
  apply (all_byte_pairs_spec (fun b c => byte3 (sextet3 b c) (sextet4 c) =? c));
    [vm_compute; reflexivity | assumption | assumption].
Qed.

Lemma u64_injective (i j : Z) : sextet i -> sextet j -> u64 i = u64 j -> i = j.
Proof.
  unfold sextet, u64. intros Hi Hj Heq.
  assert (Hnodup : NoDup base64url_alphabet)
    by (apply (bool_decide_unpack _); vm_compute; exact I).
  assert (Hlen : List.length base64url_alphabet = 64%nat) by reflexivity.
  apply NoDup_ListNoDup in Hnodup.
  pose proof (proj1 (List.NoDup_nth base64url_alphabet 0) Hnodup
                    (Z.to_nat i) (Z.to_nat j)) as H.
  rewrite Hlen in H. specialize (H ltac:(lia) ltac:(lia) Heq). lia.
Qed.

Ltac bytes :=
  repeat match goal with
         | H : Forall byte (_ :: _) |- _ =>
             let Hb := fresh "Hb" in
             pose proof (Forall_inv H) as Hb; apply Forall_inv_tail in H
         end.

Ltac same_sextets :=
  repeat match goal with
         | H : u64 _ = u64 _ |- _ =>
             apply u64_injective in H;
             [| auto using sextet1_range, sextet2_range, sextet3_range,
                  sextet4_range, byte_0 ..]
         end.

Lemma same_byte1 (a b a' b' : Z) :
  byte a -> byte b -> byte a' -> byte b' ->
  sextet1 a = sextet1 a' -> sextet2 a b = sextet2 a' b' -> a = a'.
Proof.
  intros Ha Hb Ha' Hb' H1 H2.
  transitivity (byte1 (sextet1 a) (sextet2 a b));
    [symmetry; apply byte1_sextets; assumption|].
  rewrite H1, H2. apply byte1_sextets; assumption.
Qed.

Lemma same_byte2 (a b c a' b' c' : Z) :
  byte a -> byte b -> byte c -> byte a' -> byte b' -> byte c' ->
  sextet2 a b = sextet2 a' b' -> sextet3 b c = sextet3 b' c' -> b = b'.
Proof.
  intros Ha Hb Hc Ha' Hb' Hc' H2 H3.
  transitivity (byte2 (sextet2 a b) (sextet3 b c));
    [symmetry; apply byte2_sextets; assumption|].
  rewrite H2, H3. apply byte2_sextets; assumption.
Qed.

Lemma same_byte3 (b c b' c' : Z) :
  byte b -> byte c -> byte b' -> byte c' ->
  sextet3 b c = sextet3 b' c' -> sextet4 c = sextet4 c' -> c = c'.
Proof.
  intros Hb Hc Hb' Hc' H3 H4.
  transitivity (byte3 (sextet3 b c) (sextet4 c));
    [symmetry; apply byte3_sextets; assumption|].
  rewrite H3, H4. apply byte3_sextets; assumption.
Qed.

(** Unpadded base64url is one-to-one on byte sequences. *)
Lemma base64url_injective (bs : list Z) :
  Forall byte bs -> forall bs', Forall byte bs' ->
  base64url bs = base64url bs' -> bs = bs'.
Proof.
  induction bs as [|a|a b|a b c rest IH] using list_ind3; intros Hbs bs' Hbs' Heq.
  - destruct bs' as [|a' [|b' [|c' rest']]]; [reflexivity|discriminate..].
  - destruct bs' as [|a' [|b' [|c' rest']]]; try discriminate.
    cbn [base64url] in Heq. injection Heq as H1 H2. bytes. same_sextets.
    f_equal. apply (same_byte1 a 0 a' 0); auto using byte_0.
  - destruct bs' as [|a' [|b' [|c' rest']]]; try discriminate.
    cbn [base64url] in Heq. injection Heq as H1 H2 H3. bytes. same_sextets.
    f_equal; [|f_equal].
    + apply (same_byte1 a b a' b'); assumption.
    + apply (same_byte2 a b 0 a' b' 0); auto using byte_0.
  - destruct bs' as [|a' [|b' [|c' rest']]]; try discriminate.
    cbn [base64url] in Heq. injection Heq as H1 H2 H3 H4 Hrest. bytes. same_sextets.
    f_equal; [|f_equal; [|f_equal]].
    + apply (same_byte1 a b a' b'); assumption.
    + apply (same_byte2 a b c a' b' c'); assumption.
    + apply (same_byte3 b c b' c'); assumption.
    + apply IH; assumption.
Qed.

(** X1: for every length up to 65536 (the most [crypto.getRandomValues]
    fills in one call) and whatever the random bytes,
    [generateRandomString(length)] returns exactly [length] characters, every
    one of them an unreserved character; in particular the 16-character
    [state] parameter has this shape, and length 0 gives the empty
    string. *)
Theorem generateRandomString_shape (entropy : nat -> Z) (n : nat) :
  Z.of_nat n <= 65536 ->
  List.length (generateRandomString entropy n) = n
  /\ Forall (fun c => In c charset /\ is_unreserved c = true)
            (generateRandomString entropy n)
  /\ generateRandomString entropy 0 = [].
Proof.
  intros _. split; [|split].
  - rewrite generateRandomString_map, List.length_map, List.length_seq. reflexivity.
  - eapply List.Forall_impl; [|apply generateRandomString_chars].
    intros c Hc. cbn beta in Hc. split; [exact Hc | apply charset_unreserved, Hc].
  - reflexivity.
Qed.

Lemma generateRandomString_shape_witness :
  Z.of_nat 16 <= 65536
  /\ List.length (generateRandomString (fun i => Z.of_nat (7 * i)) 16) = 16%nat
  /\ generateRandomString (fun i => Z.of_nat (7 * i)) 16 = js "AHOVcjqx4.ELSZgn".
Proof.
  split; [cbn; lia|]. split; [|reflexivity].
  apply (generateRandomString_shape (fun i => Z.of_nat (7 * i)) 16). cbn. lia.
Defined.

(** X2: the modulo in [charset[v % charset.length]] does not spread the 256
    byte values evenly over the 66 symbols: each of the first 58 symbols
    (A-Z, a-z, 0-5) is selected by exactly four byte values, each of the
    last eight (6-9, -, ., _, ~) by exactly three. *)
Theorem charset_modulo_bias (k : Z) :
  0 <= k < 66 ->
  byte_values_selecting k = if k <? 58 then 4%nat else 3%nat.
Proof.
  intros Hk.
  assert (Hall : forallb (fun n => Nat.eqb (byte_values_selecting (Z.of_nat n))
                                           (if Z.of_nat n <? 58 then 4 else 3))
                         (seq 0 66) = true) by (vm_compute; reflexivity).
  rewrite forallb_forall in Hall.
  specialize (Hall (Z.to_nat k) ltac:(apply in_seq; lia)).
  rewrite Z2Nat.id in Hall by lia. apply Nat.eqb_eq, Hall.
Qed.

Lemma charset_modulo_bias_witness :
  0 <= 61 < 66 /\ nth 61 charset 0 = 57 /\ byte_values_selecting 61 = 3%nat.
Proof.
  split; [lia|]. split; [reflexivity|].
  apply (charset_modulo_bias 61). lia.
Defined.

(** X3: the challenge loses nothing of the digest: two strings that
    [sha256] maps to the same challenge have the same SHA-256 digest (of
    their UTF-8 bytes), so the three [replace] calls never merge two
    different digests. *)
Theorem sha256_same_challenge_same_digest (p q : jsstring) :
  sha256 p = sha256 q ->
  Sha256.digest (TextEncoder_encode p) = Sha256.digest (TextEncoder_encode q).
Proof.
  rewrite !sha256_unfold. intros Heq. injection Heq as Heq.
  apply base64url_injective in Heq; [exact Heq | apply digest_range..].
Qed.

Lemma sha256_same_challenge_same_digest_witness :
  sha256 [0xD800] = sha256 [0xFFFD]
  /\ Sha256.digest (TextEncoder_encode [0xD800])
     = Sha256.digest (TextEncoder_encode [0xFFFD]).
Proof.
  split; [reflexivity|].
  apply (sha256_same_challenge_same_digest [0xD800] [0xFFFD]). reflexivity.
Defined.

End PkceMore.

(** * More about the callback page *)

Section CallbackMore.
Import Js Callback.

Ltac run_page :=
  unfold exchange, visit, useEffect, exchangeCodeForTokens, try_catch_finally, bind, lift,
    fetch, throw, ret, sessionStorage_getItem, sessionStorage_setItem, setError,
    setExchanging, console_error, setTimeout_router_push, mount, load_verifier, failed;
  cbn.

(** X4: a redirect that carries neither a usable [error] nor a usable
    [code] (absent or empty) ends in the error [Authorization code missing]:
    no request is dispatched and session storage is left alone. *)
Theorem visit_without_code
        (P : Platform) (server : Request -> completion (Response (number P)))
        (searchParams : list (string * string)) (storage : gmap string string) :
  truthy (URLSearchParams_get searchParams "error") = false ->
  truthy (URLSearchParams_get searchParams "code") = false ->
  visit P server searchParams storage
  = {| sessionStorage := storage; network := []; console := []; timers := [];
       error := Some "Authorization code missing"; exchanging := false |}.
Proof.
  intros He Hc. unfold visit, useEffect. rewrite He, Hc. reflexivity.
Qed.

Lemma visit_without_code_witness :
  truthy (URLSearchParams_get [("state", "xyz"); ("code", EmptyString)] "error") = false
  /\ truthy (URLSearchParams_get [("state", "xyz"); ("code", EmptyString)] "code") = false
  /\ Run.visit 200 (Normal Run.token_response)
               [("state", "xyz"); ("code", EmptyString)] Run.session
     = {| sessionStorage := Run.session; network := []; console := []; timers := [];
          error := Some "Authorization code missing"; exchanging := false |}.
Proof.
  split; [reflexivity|]. split; [reflexivity|].
  apply (visit_without_code Engine.platform
           (Engine.answering 200 (Normal Run.token_response))
           [("state", "xyz"); ("code", EmptyString)] Run.session);
    reflexivity.
Defined.

(** X5: when the redirect has no usable [error] and a non-empty [code], the
    page does exactly what [exchangeCodeForTokens] does with the first
    [code] value: the effect adds nothing of its own. *)
Theorem visit_with_code
        (P : Platform) (server : Request -> completion (Response (number P)))
        (searchParams : list (string * string)) (storage : gmap string string)
        (code : string) :
  truthy (URLSearchParams_get searchParams "error") = false ->
  URLSearchParams_get searchParams "code" = Some code ->
  code <> EmptyString ->
  visit P server searchParams storage = exchange P server code storage.
Proof.
  intros He Hc Hne. unfold visit, exchange, useEffect.
  rewrite He, Hc, (truthy_Some _ Hne). reflexivity.
Qed.

Lemma visit_with_code_witness :
  truthy (URLSearchParams_get [("code", Run.code); ("code", "second")] "error") = false
  /\ URLSearchParams_get [("code", Run.code); ("code", "second")] "code" = Some Run.code
  /\ Run.code <> EmptyString
  /\ Run.visit 200 (Normal Run.token_response)
               [("code", Run.code); ("code", "second")] Run.session
     = Run.exchange 200 (Normal Run.token_response) Run.session.
Proof.
  split; [reflexivity|]. split; [reflexivity|]. split; [discriminate|].
  apply (visit_with_code Engine.platform
           (Engine.answering 200 (Normal Run.token_response))
           [("code", Run.code); ("code", "second")] Run.session Run.code).
  - reflexivity.
  - reflexivity.
  - discriminate.
Defined.

(** X6: whatever the storage and the endpoint do, one exchange dispatches
    at most one request, and only the POST to [/oidc/token] with the form
    content type; it always ends with the spinner off; and it schedules
    the redirect home (once, after 1500 ms) exactly when it sets no
    error. *)
Theorem exchange_invariants
        (P : Platform) (server : Request -> completion (Response (number P)))
        (code : string) (storage : gmap string string) :
  let after := exchange P server code storage in
  (List.length (network after) <= 1)%nat
  /\ Forall (fun r => url r = "/oidc/token" /\ method r = "POST"
                      /\ headers r = [("Content-Type", "application/x-www-form-urlencoded")])
            (network after)
  /\ exchanging after = false
  /\ ((error after = None /\ timers after = [(1500, "/")])
      \/ ((exists message, error after = Some message) /\ timers after = [])).
Proof.
  cbv zeta.
  destruct (truthy (storage !! "code_verifier")) eqn:Hv.
  - apply truthy_inv in Hv. destruct Hv as (verifier & Hv & Hne).
    assert (Hreq : Forall (fun r => url r = "/oidc/token" /\ method r = "POST"
                      /\ headers r = [("Content-Type", "application/x-www-form-urlencoded")])
                     [token_request P code verifier])
      by (repeat constructor).
    destruct (server (token_request P code verifier)) as [resp|message] eqn:Hs.
    + destruct (ok resp) eqn:Hok.
      * destruct (json_body resp) as [data|message] eqn:Hj.
        -- destruct (null_or_not P data) as [->|Hdata].
           ++ rewrite (exchange_null_body _ _ _ _ _ Hv Hne _ Hs Hok Hj).
              cbn. repeat split; [lia | exact Hreq | right; eauto].
           ++ rewrite (exchange_written _ _ _ _ _ Hv Hne _ _ Hs Hok Hj Hdata).
              unfold written.
              destruct (snd (write_tokens P data storage)); cbn;
                repeat split;
                [lia | exact Hreq | right; eauto | lia | exact Hreq
                | left; split; reflexivity].
        -- rewrite (exchange_unparseable _ _ _ _ _ Hv Hne _ _ Hs Hok Hj).
           cbn. repeat split; [lia | exact Hreq | right; eauto].
      * rewrite (exchange_rejected _ _ _ _ _ Hv Hne _ Hs Hok).
        cbn. repeat split; [lia | exact Hreq | right; eauto].
    + rewrite (exchange_transport_failure _ _ _ _ _ Hv Hne _ Hs).
      cbn. repeat split; [lia | exact Hreq | right; eauto].
  - rewrite (exchange_no_verifier _ _ _ _ Hv).
    cbn. repeat split; [lia | constructor | right; eauto].
Qed.

(** X7: an exchange writes no session-storage key other than
    [access_token], [id_token], [refresh_token] and [tokens]: every other
    key reads after the attempt as it read before, on every path. *)
Theorem exchange_writes_only_token_keys
        (P : Platform) (server : Request -> completion (Response (number P)))
        (code : string) (storage : gmap string string) (key : string) :
  key <> "access_token" -> key <> "id_token" ->
  key <> "refresh_token" -> key <> "tokens" ->
  sessionStorage (exchange P server code storage) !! key = storage !! key.
Proof.
  intros Ha Hi Hr Ht.
  destruct (exchange_settles P server code storage) as [|verifier resp data].
  - reflexivity.
  - rewrite written_storage. apply write_tokens_frame; assumption.
Qed.

Lemma exchange_writes_only_token_keys_witness :
  "oidc_state" <> "access_token" /\ "oidc_state" <> "id_token"
  /\ "oidc_state" <> "refresh_token" /\ "oidc_state" <> "tokens"
  /\ sessionStorage (Run.exchange 200 (Normal Run.token_response)
                                  (<["oidc_state" := "xyz"]> Run.session))
       !! "oidc_state" = Some "xyz".
Proof.
  do 4 (split; [discriminate|]). unfold Run.exchange.
  rewrite (exchange_writes_only_token_keys Engine.platform
             (Engine.answering 200 (Normal Run.token_response)) Run.code
             (<["oidc_state" := "xyz"]> Run.session) "oidc_state");
    [reflexivity | discriminate..].
Defined.

(** X8: a successful exchange whose response has no (truthy)
    [refresh_token] does not touch the [refresh_token] key: when the
    response's [access_token] and [id_token] have string forms, the
    exchange succeeds, and a refresh token left in session storage by an
    earlier login is still there afterwards, next to the new access
    token. *)
Theorem exchange_keeps_old_refresh_token
        (P : Platform) (server : Request -> completion (Response (number P)))
        (code verifier : string) (storage : gmap string string)
        (resp : Response (number P)) (tokenData : json (number P))
        (access_text id_text : string) :
  storage !! "code_verifier" = Some verifier ->
  verifier <> EmptyString ->
  server (token_request P code verifier) = Normal resp ->
  ok resp = true ->
  json_body resp = Normal tokenData ->
  tokenData <> JNull ->
  ToString P (property P tokenData "access_token") = Normal access_text ->
  ToString P (property P tokenData "id_token") = Normal id_text ->
  ToBoolean P (property P tokenData "refresh_token") = false ->
  let after := exchange P server code storage in
  error after = None
  /\ sessionStorage after !! "refresh_token" = storage !! "refresh_token"
  /\ sessionStorage after !! "access_token" = Some access_text.
Proof.
  intros Hv Hne Hs Hok Hj Hdata Haccess Hid Hfalsy. cbv zeta.
  rewrite (exchange_written P server code verifier storage Hv Hne resp tokenData
             Hs Hok Hj Hdata).
  unfold written, write_tokens. rewrite Haccess, Hid, Hfalsy.
  cbn [snd fst succeeded error sessionStorage].
  split; [reflexivity|]. split.
  - repeat (rewrite lookup_insert_ne by discriminate). reflexivity.
  - repeat (rewrite lookup_insert_ne by discriminate). apply lookup_insert_eq.
Qed.

Lemma exchange_keeps_old_refresh_token_witness :
  (<["refresh_token" := "from-an-earlier-login"]> Run.session) !! "code_verifier"
  = Some Run.verifier
  /\ ToString Engine.platform (property Engine.platform Run.token_response "access_token")
     = Normal "abc"
  /\ ToString Engine.platform (property Engine.platform Run.token_response "id_token")
     = Normal "def"
  /\ ToBoolean Engine.platform (property Engine.platform Run.token_response "refresh_token")
     = false
  /\ error (Run.exchange 200 (Normal Run.token_response)
                         (<["refresh_token" := "from-an-earlier-login"]> Run.session))
     = None
  /\ sessionStorage (Run.exchange 200 (Normal Run.token_response)
                                  (<["refresh_token" := "from-an-earlier-login"]> Run.session))
       !! "refresh_token" = Some "from-an-earlier-login"
  /\ sessionStorage (Run.exchange 200 (Normal Run.token_response)
                                  (<["refresh_token" := "from-an-earlier-login"]> Run.session))
       !! "access_token" = Some "abc".
Proof.
  split; [reflexivity|]. split; [reflexivity|]. split; [reflexivity|].
  split; [reflexivity|].
  exact (exchange_keeps_old_refresh_token Engine.platform
           (Engine.answering 200 (Normal Run.token_response)) Run.code Run.verifier
           (<["refresh_token" := "from-an-earlier-login"]> Run.session)
           {| status := 200; json_body := Normal Run.token_response |}
           Run.token_response "abc" "def"
           eq_refl ltac:(discriminate) eq_refl eq_refl eq_refl ltac:(discriminate)
           eq_refl eq_refl eq_refl).
Defined.

(** X9: a [code_verifier] entry that holds the empty string counts as no
    verifier at all: the exchange fails with the same error as when the key
    is absent, and dispatches no request. *)
Theorem exchange_empty_verifier
        (P : Platform) (server : Request -> completion (Response (number P)))
        (code : string) (storage : gmap string string) :
  storage !! "code_verifier" = Some EmptyString ->
  let after := exchange P server code storage in
  error after = Some missing_verifier
  /\ network after = []
  /\ sessionStorage after = storage.
Proof.
  intros Hv. cbv zeta. rewrite exchange_no_verifier.
  - repeat split.
  - rewrite Hv. reflexivity.
Qed.

Lemma exchange_empty_verifier_witness :
  ({[ "code_verifier" := EmptyString ]} : gmap string string) !! "code_verifier"
  = Some EmptyString
  /\ error (Run.exchange 200 (Normal Run.token_response)
                         {[ "code_verifier" := EmptyString ]})
     = Some missing_verifier
  /\ network (Run.exchange 200 (Normal Run.token_response)
                           {[ "code_verifier" := EmptyString ]}) = []
  /\ sessionStorage (Run.exchange 200 (Normal Run.token_response)
                                  {[ "code_verifier" := EmptyString ]})
     = {[ "code_verifier" := EmptyString ]}.
Proof.
  split; [reflexivity|].
  apply (exchange_empty_verifier Engine.platform
           (Engine.answering 200 (Normal Run.token_response)) Run.code
           {[ "code_verifier" := EmptyString ]}).
  reflexivity.
Defined.

(** X10: when [fetch] itself rejects (no answer from the endpoint), the
    exchange reports the rejection's message as its error after that one
    request, stores nothing and schedules no redirect. *)
Theorem exchange_network_failure
        (P : Platform) (server : Request -> completion (Response (number P)))
        (code verifier : string) (storage : gmap string string) (message : string) :
  storage !! "code_verifier" = Some verifier ->
  verifier <> EmptyString ->
  server (token_request P code verifier) = Throw message ->
  let after := exchange P server code storage in
  error after = Some message
  /\ network after = [token_request P code verifier]
  /\ sessionStorage after = storage
  /\ timers after = []
  /\ exchanging after = false.
Proof.
  intros Hv Hne Hs. cbv zeta.
  rewrite (exchange_transport_failure P server code verifier storage Hv Hne message Hs).
  repeat split.
Qed.

Lemma exchange_network_failure_witness :
  Run.session !! "code_verifier" = Some Run.verifier
  /\ Run.verifier <> EmptyString
  /\ error (exchange Engine.platform (fun _ => Throw "Failed to fetch") Run.code Run.session)
     = Some "Failed to fetch"
  /\ network (exchange Engine.platform (fun _ => Throw "Failed to fetch") Run.code
                       Run.session)
     = [token_request Engine.platform Run.code Run.verifier]
  /\ sessionStorage (exchange Engine.platform (fun _ => Throw "Failed to fetch") Run.code
                              Run.session)
     = Run.session
  /\ timers (exchange Engine.platform (fun _ => Throw "Failed to fetch") Run.code
                      Run.session) = []
  /\ exchanging (exchange Engine.platform (fun _ => Throw "Failed to fetch") Run.code
                          Run.session) = false.
Proof.
  split; [reflexivity|]. split; [discriminate|].
  apply (exchange_network_failure Engine.platform (fun _ => Throw "Failed to fetch")
           Run.code Run.verifier Run.session "Failed to fetch");
    first [reflexivity | discriminate].
Defined.

End CallbackMore.

(** * The home page *)

Section HomeFacts.
Import Js Home.

Lemma js_string_of_js (s : jsstring) :
  Forall Spec.byte s -> js (string_of_js s) = s.
Proof.
  unfold js, string_of_js. rewrite list_ascii_of_string_of_list_ascii, List.map_map.
  induction 1 as [|c s Hc _ IH]; [reflexivity|].
  cbn [List.map]. rewrite IH. f_equal.
  unfold Spec.byte in Hc. rewrite N_ascii_embedding by lia. lia.
Qed.

Lemma length_string_of_js (s : jsstring) :
  String.length (string_of_js s) = List.length s.
Proof.
  unfold string_of_js. induction s as [|c s IH]; [reflexivity|].
  cbn [List.map string_of_list_ascii String.length List.length]. rewrite IH. reflexivity.
Qed.

Lemma string_of_js_nonempty (s : jsstring) :
  (0 < List.length s)%nat -> string_of_js s <> EmptyString.
Proof.
  intros Hlen Heq. apply (f_equal String.length) in Heq.
  rewrite length_string_of_js in Heq. cbn in Heq. lia.
Qed.

Lemma generateRandomString_length (entropy : nat -> Z) (n : nat) :
  List.length (Pkce.generateRandomString entropy n) = n.
Proof.
  rewrite generateRandomString_map, List.length_map, List.length_seq. reflexivity.
Qed.

Lemma generated_bytes (entropy : nat -> Z) (n : nat) :
  Forall Spec.byte (Pkce.generateRandomString entropy n).
Proof.
  eapply List.Forall_impl; [|apply generateRandomString_chars].
  intros c Hc. cbn beta in Hc.
  pose proof (unreserved_below_128 c (charset_unreserved c Hc)) as Hlt.
  assert (Hall : forallb (fun x => 0 <=? x) Pkce.charset = true) by (vm_compute; reflexivity).
  rewrite forallb_forall in Hall. specialize (Hall c Hc). apply Z.leb_le in Hall.
  unfold Spec.byte. lia.
Qed.

Lemma base64url_bytes (bs : list Z) :
  Forall Spec.byte bs -> Forall Spec.byte (Spec.base64url bs).
Proof.
  intros Hbs. eapply List.Forall_impl; [|apply (base64url_chars bs Hbs)].
  intros c (Hc & _). unfold Spec.is_base64url_char in Hc. unfold Spec.byte.
  repeat match goal with
         | H : (_ || _) = true |- _ => apply orb_prop in H; destruct H as [H|H]
         | H : (_ && _) = true |- _ => apply andb_prop in H; destruct H
         end;
    repeat match goal with
           | H : (_ <=? _) = true |- _ => apply Z.leb_le in H
           | H : (_ =? _) = true |- _ => apply Z.eqb_eq in H
           end; lia.
Qed.

Ltac run_home :=
  unfold after, startAuthFlow, getUserInfo, refreshAccessToken, getDiscoveryInfo,
    introspectToken, revokeToken, logout, useEffect, try_catch_finally, try_catch,
    bind, lift, fetch, throw, ret, sessionStorage_getItem, sessionStorage_setItem,
    sessionStorage_clear, setLoading, setTokens, setUserInfo, setDiscoveryInfo,
    setIntrospectionResult, setError, on_state, on_storage, navigate, alert,
    console_error;
  cbn.

(** What [startAuthFlow] leaves behind, in full. *)
Lemma startAuthFlow_world (P : Platform) (sha256_rejection : string) (entropy : nat -> Z) (w : World P) :
  after (startAuthFlow P sha256_rejection entropy) w
  = {| sessionStorage :=
         <["code_verifier" := string_of_js (Pkce.codeVerifier entropy)]> (sessionStorage w);
       network := network w;
       location :=
         Some ("/oidc/auth?" +:+
               URLSearchParams_toString P
                 (authorization_params
                    (string_of_js
                       (Spec.base64url
                          (Sha256.digest
                             (Browser.TextEncoder_encode (Pkce.codeVerifier entropy)))))
                    (string_of_js
                       (Pkce.generateRandomString (fun i => entropy (128 + i)%nat) 16))));
       alerts := alerts w; console := console w;
       state := {| loading := true; tokens := tokens (state w);
                   userInfo := userInfo (state w);
                   discoveryInfo := discoveryInfo (state w);
                   introspectionResult := introspectionResult (state w);
                   error := None |} |}.
Proof.
  unfold after, startAuthFlow, try_catch, bind, lift.
  rewrite sha256_unfold. reflexivity.
Qed.

Lemma exchange_network_with_verifier (P : Platform)
      (server : Callback.Request -> completion (Callback.Response (number P)))
      (code verifier : string) (storage : gmap string string) :
  storage !! "code_verifier" = Some verifier -> verifier <> EmptyString ->
  Callback.network (Callback.exchange P server code storage)
  = [Callback.token_request P code verifier].
Proof.
  intros Hv Hne.
  destruct (server (Callback.token_request P code verifier)) as [resp|message] eqn:Hs.
  - destruct (Callback.ok resp) eqn:Hok.
    + destruct (Callback.json_body resp) as [data|message] eqn:Hj.
      * destruct (null_or_not P data) as [->|Hdata].
        -- rewrite (exchange_null_body _ _ _ _ _ Hv Hne _ Hs Hok Hj). reflexivity.
        -- rewrite (exchange_written _ _ _ _ _ Hv Hne _ _ Hs Hok Hj Hdata).
           apply written_network.
      * rewrite (exchange_unparseable _ _ _ _ _ Hv Hne _ _ Hs Hok Hj). reflexivity.
    + rewrite (exchange_rejected _ _ _ _ _ Hv Hne _ Hs Hok). reflexivity.
  - rewrite (exchange_transport_failure _ _ _ _ _ Hv Hne _ Hs). reflexivity.
Qed.

Lemma challenge_of_stored (entropy : nat -> Z) :
  Pkce.sha256 (js (string_of_js (Pkce.codeVerifier entropy)))
  = Some (js (string_of_js
                (Spec.base64url
                   (Sha256.digest
                      (Browser.TextEncoder_encode (Pkce.codeVerifier entropy)))))).
Proof.
  rewrite (js_string_of_js (Pkce.codeVerifier entropy)) by apply generated_bytes.
  rewrite js_string_of_js by (apply base64url_bytes, digest_range).
  apply sha256_unfold.
Qed.


(** X12: the two pages agree on the verifier.  After [startAuthFlow], an
    exchange on the callback page (whatever the code and the endpoint's
    answer) dispatches exactly one token request, and the [code_verifier]
    it carries is the string whose S256 transform went out as
    [code_challenge] in the authorization redirect. *)
Theorem startAuthFlow_then_exchange (P : Platform)
        (server : Callback.Request -> completion (Callback.Response (number P)))
        (sha256_rejection : string) (entropy : nat -> Z) (w : World P) (code : string) :
  let home := after (startAuthFlow P sha256_rejection entropy) w in
  let callback := Callback.exchange P server code (sessionStorage home) in
  exists verifier challenge state_param : string,
    location home
    = Some ("/oidc/auth?" +:+
            URLSearchParams_toString P (authorization_params challenge state_param))
    /\ Callback.network callback = [Callback.token_request P code verifier]
    /\ Pkce.sha256 (js verifier) = Some (js challenge).
Proof.
  cbv zeta. rewrite startAuthFlow_world.
  eexists _, _, _. cbn [sessionStorage location].
  split; [reflexivity|]. split; [|apply challenge_of_stored].
  apply exchange_network_with_verifier.
  - apply lookup_insert_eq.
  - apply string_of_js_nonempty.
    unfold Pkce.codeVerifier. rewrite generateRandomString_length. lia.
Qed.

Ltac split_cases server :=
  repeat (match goal with
          | |- context [truthy ?x] => destruct (truthy x) eqn:?
          | |- context [server ?r] => destruct (server r) eqn:?
          | |- context [Callback.ok ?r] => destruct (Callback.ok r) eqn:?
          | |- context [Callback.json_body ?r] => destruct (Callback.json_body r) eqn:?
          | |- context [Get _ ?d _] => destruct d
          | |- context [ToBoolean ?Q ?d] => destruct (ToBoolean Q d) eqn:?
          end; cbn).

(** X13: the three handlers that only look things up ([getUserInfo],
    [getDiscoveryInfo], [introspectToken]) never write session storage,
    never navigate and never change the displayed tokens, on any path; each
    dispatches at most one request and always ends with the loading flag
    off. *)
Theorem lookups_leave_session_alone (P : Platform)
        (server : Request -> completion (Callback.Response (number P))) :
  HomeProps.looks_up_only (getUserInfo P server)
  /\ HomeProps.looks_up_only (getDiscoveryInfo P server)
  /\ HomeProps.looks_up_only (introspectToken P server).
Proof.
  unfold HomeProps.looks_up_only.
  split; [|split]; intros w; cbv zeta; run_home; split_cases server;
    repeat split; first [left; reflexivity | right; eexists; reflexivity].
Qed.

(** X14: with an access token in session storage, [getUserInfo] sends one
    GET to [/oidc/me] with the header [Authorization: Bearer <token>].  On a
    2xx answer with a JSON body it shows that body and clears any earlier
    error; on a 2xx answer that does not parse it reports the parser's
    message; on a non-2xx answer it reports [Failed to get user info]
    without reading the body.  In both failure cases what was shown before
    stays shown. *)
Theorem getUserInfo_outcomes (P : Platform)
        (server : Request -> completion (Callback.Response (number P)))
        (w : World P) (token : string) (resp : Callback.Response (number P)) :
  sessionStorage w !! "access_token" = Some token ->
  token <> EmptyString ->
  server (HomeProps.me_request token) = Normal resp ->
  let w' := after (getUserInfo P server) w in
  network w' = network w ++ [HomeProps.me_request token]
  /\ if Callback.ok resp
     then match Callback.json_body resp with
          | Normal userData =>
              userInfo (state w') = userData /\ error (state w') = None
          | Throw syntax_error =>
              userInfo (state w') = userInfo (state w)
              /\ error (state w') = Some syntax_error
          end
     else userInfo (state w') = userInfo (state w)
          /\ error (state w') = Some "Failed to get user info".
Proof.
  intros Ht Hne Hs. cbv zeta. run_home. rewrite Ht. cbn.
  rewrite (eqb_nonempty _ Hne). cbn. fold (HomeProps.me_request token). rewrite Hs. cbn.
  destruct (Callback.ok resp); cbn; [|repeat split].
  destruct (Callback.json_body resp); cbn; repeat split.
Qed.

Lemma getUserInfo_outcomes_witness :
  HomeProps.logged_in !! "access_token" = Some "abc"
  /\ "abc" <> EmptyString
  /\ network (after (getUserInfo Engine.platform
                       (HomeProps.answering 401 (Normal Run.invalid_grant)))
                    (HomeProps.stale Engine.platform HomeProps.logged_in Run.empty_object))
     = [HomeProps.me_request "abc"]
  /\ userInfo (state (after (getUserInfo Engine.platform
                               (HomeProps.answering 401 (Normal Run.invalid_grant)))
                            (HomeProps.stale Engine.platform HomeProps.logged_in
                                             Run.empty_object)))
     = Run.empty_object
  /\ error (state (after (getUserInfo Engine.platform
                            (HomeProps.answering 401 (Normal Run.invalid_grant)))
                         (HomeProps.stale Engine.platform HomeProps.logged_in
                                          Run.empty_object)))
     = Some "Failed to get user info".
Proof.
  split; [reflexivity|]. split; [discriminate|].
  exact (getUserInfo_outcomes Engine.platform
           (HomeProps.answering 401 (Normal Run.invalid_grant))
           (HomeProps.stale Engine.platform HomeProps.logged_in Run.empty_object)
           "abc" {| Callback.status := 401; Callback.json_body := Normal Run.invalid_grant |}
           eq_refl ltac:(discriminate) eq_refl).
Defined.

(** X15: without a usable access token in session storage (absent or
    empty), [getUserInfo] and [introspectToken] dispatch no request at all;
    each reports its own [No access token found...] error. *)
Theorem access_token_required (P : Platform)
        (server : Request -> completion (Callback.Response (number P)))
        (w : World P) :
  truthy (sessionStorage w !! "access_token") = false ->
  (network (after (getUserInfo P server) w) = network w
   /\ error (state (after (getUserInfo P server) w))
      = Some "No access token found. Please exchange code first.")
  /\ (network (after (introspectToken P server) w) = network w
      /\ error (state (after (introspectToken P server) w))
         = Some "No access token found.").
Proof.
  intros Ht. split; run_home; rewrite Ht; cbn; split; reflexivity.
Qed.

Lemma access_token_required_witness :
  truthy (sessionStorage (mount Engine.platform Run.session) !! "access_token") = false
  /\ network (after (getUserInfo Engine.platform
                       (HomeProps.answering 200 (Normal Run.empty_object)))
                    (mount Engine.platform Run.session)) = []
  /\ error (state (after (introspectToken Engine.platform
                            (HomeProps.answering 200 (Normal Run.empty_object)))
                         (mount Engine.platform Run.session)))
     = Some "No access token found.".
Proof.
  split; [reflexivity|].
  pose proof (access_token_required Engine.platform
                (HomeProps.answering 200 (Normal Run.empty_object))
                (mount Engine.platform Run.session) eq_refl) as ((Hn & _) & (_ & He)).
  split; assumption.
Defined.

(** X16: without a usable refresh token in session storage,
    [refreshAccessToken] and [revokeToken] dispatch no request and change
    neither session storage nor the displayed tokens; both report
    [No refresh token found.] *)
Theorem refresh_token_required (P : Platform)
        (server : Request -> completion (Callback.Response (number P)))
        (w : World P) :
  truthy (sessionStorage w !! "refresh_token") = false ->
  Forall (fun handler =>
            network (after handler w) = network w
            /\ sessionStorage (after handler w) = sessionStorage w
            /\ tokens (state (after handler w)) = tokens (state w)
            /\ error (state (after handler w)) = Some "No refresh token found.")
         [refreshAccessToken P server; revokeToken P server].
Proof.
  intros Ht. repeat constructor; run_home; rewrite Ht; reflexivity.
Qed.

Lemma refresh_token_required_witness :
  truthy (sessionStorage (mount Engine.platform Run.session) !! "refresh_token") = false
  /\ Forall (fun handler =>
               network (after handler (mount Engine.platform Run.session)) = []
               /\ sessionStorage (after handler (mount Engine.platform Run.session))
                  = Run.session
               /\ tokens (state (after handler (mount Engine.platform Run.session)))
                  = JNull
               /\ error (state (after handler (mount Engine.platform Run.session)))
                  = Some "No refresh token found.")
            [refreshAccessToken Engine.platform
               (HomeProps.answering 200 (Normal Run.token_response));
             revokeToken Engine.platform
               (HomeProps.answering 200 (Normal Run.token_response))].
Proof.
  split; [reflexivity|].
  exact (refresh_token_required Engine.platform
           (HomeProps.answering 200 (Normal Run.token_response))
           (mount Engine.platform Run.session) eq_refl).
Defined.

(** X17: a successful [refreshAccessToken] (2xx, a JSON body other than
    null, whose [access_token] and truthy [refresh_token] have string
    forms) shows the new token response and stores the string form of its
    [access_token]; the stored refresh token is replaced only when the
    response carries a truthy [refresh_token] and is kept otherwise; and
    no other session-storage key changes, so the stored [tokens] and
    [id_token] still hold what the login stored. *)
Theorem refreshAccessToken_success (P : Platform)
        (server : Request -> completion (Callback.Response (number P)))
        (w : World P) (refreshToken : string)
        (resp : Callback.Response (number P)) (tokenData : json (number P))
        (access_text kept : string) :
  sessionStorage w !! "refresh_token" = Some refreshToken ->
  refreshToken <> EmptyString ->
  server (refresh_request P refreshToken) = Normal resp ->
  Callback.ok resp = true ->
  Callback.json_body resp = Normal tokenData ->
  tokenData <> JNull ->
  ToString P (property P tokenData "access_token") = Normal access_text ->
  (if ToBoolean P (property P tokenData "refresh_token")
   then ToString P (property P tokenData "refresh_token")
   else Normal refreshToken) = Normal kept ->
  let w' := after (refreshAccessToken P server) w in
  tokens (state w') = tokenData
  /\ error (state w') = None
  /\ network w' = network w ++ [refresh_request P refreshToken]
  /\ sessionStorage w' !! "access_token" = Some access_text
  /\ sessionStorage w' !! "refresh_token" = Some kept
  /\ (forall key, key <> "access_token" -> key <> "refresh_token" ->
                  sessionStorage w' !! key = sessionStorage w !! key).
Proof.
  intros Ht Hne Hs Hok Hj Hdata Haccess Hkept. cbv zeta. run_home. rewrite Ht. cbn.
  rewrite (eqb_nonempty _ Hne). cbn. rewrite Hs. cbn. rewrite Hok. cbn.
  rewrite Hj. cbn. rewrite !(Get_property P tokenData) by assumption.
  cbn. rewrite Haccess. cbn.
  destruct (ToBoolean P (property P tokenData "refresh_token")); cbn.
  - rewrite Hkept. cbn.
    do 3 (split; [reflexivity|]). split; [|split].
    + rewrite lookup_insert_ne by discriminate. apply lookup_insert_eq.
    + apply lookup_insert_eq.
    + intros key Ha Hr. repeat (rewrite lookup_insert_ne by congruence). reflexivity.
  - injection Hkept as <-.
    do 3 (split; [reflexivity|]). split; [|split].
    + apply lookup_insert_eq.
    + rewrite lookup_insert_ne by discriminate. exact Ht.
    + intros key Ha Hr. rewrite lookup_insert_ne by congruence. reflexivity.
Qed.

Lemma refreshAccessToken_success_witness :
  HomeProps.logged_in !! "refresh_token" = Some "ghi"
  /\ "ghi" <> EmptyString
  /\ ToString Engine.platform (property Engine.platform HomeProps.refreshed "access_token")
     = Normal "new"
  /\ ToBoolean Engine.platform (property Engine.platform HomeProps.refreshed "refresh_token")
     = false
  /\ sessionStorage
       (after (refreshAccessToken Engine.platform
                 (HomeProps.answering 200 (Normal HomeProps.refreshed)))
              (mount Engine.platform HomeProps.logged_in))
       !! "access_token" = Some "new"
  /\ sessionStorage
       (after (refreshAccessToken Engine.platform
                 (HomeProps.answering 200 (Normal HomeProps.refreshed)))
              (mount Engine.platform HomeProps.logged_in))
       !! "refresh_token" = Some "ghi"
  /\ sessionStorage
       (after (refreshAccessToken Engine.platform
                 (HomeProps.answering 200 (Normal HomeProps.refreshed)))
              (mount Engine.platform HomeProps.logged_in))
       !! "tokens" = Some (Engine.stringify Run.token_response).
Proof.
  split; [reflexivity|]. split; [discriminate|]. split; [reflexivity|].
  split; [reflexivity|].
  pose proof (refreshAccessToken_success Engine.platform
                (HomeProps.answering 200 (Normal HomeProps.refreshed))
                (mount Engine.platform HomeProps.logged_in) "ghi"
                {| Callback.status := 200;
                   Callback.json_body := Normal HomeProps.refreshed |}
                HomeProps.refreshed "new" "ghi"
                eq_refl ltac:(discriminate) eq_refl eq_refl eq_refl ltac:(discriminate)
                eq_refl eq_refl)
    as (_ & _ & _ & Ha & Hr & Hother).
  split; [exact Ha|]. split; [exact Hr|].
  rewrite (Hother "tokens") by discriminate. reflexivity.
Defined.

(** X18: when the endpoint answers [refreshAccessToken] with a non-2xx
    status, the error is always [Token refresh failed] (the body is never
    read), after one request; session storage and the displayed tokens
    are left as they were. *)
Theorem refreshAccessToken_rejected (P : Platform)
        (server : Request -> completion (Callback.Response (number P)))
        (w : World P) (refreshToken : string) (resp : Callback.Response (number P)) :
  sessionStorage w !! "refresh_token" = Some refreshToken ->
  refreshToken <> EmptyString ->
  server (refresh_request P refreshToken) = Normal resp ->
  Callback.ok resp = false ->
  let w' := after (refreshAccessToken P server) w in
  error (state w') = Some "Token refresh failed"
  /\ network w' = network w ++ [refresh_request P refreshToken]
  /\ sessionStorage w' = sessionStorage w
  /\ tokens (state w') = tokens (state w)
  /\ loading (state w') = false.
Proof.
  intros Ht Hne Hs Hok. cbv zeta. run_home. rewrite Ht. cbn.
  rewrite (eqb_nonempty _ Hne). cbn. rewrite Hs. cbn. rewrite Hok. cbn.
  repeat split.
Qed.

Lemma refreshAccessToken_rejected_witness :
  HomeProps.logged_in !! "refresh_token" = Some "ghi"
  /\ "ghi" <> EmptyString
  /\ error (state (after (refreshAccessToken Engine.platform
                            (HomeProps.answering 400 (Normal Run.invalid_grant)))
                         (mount Engine.platform HomeProps.logged_in)))
     = Some "Token refresh failed"
  /\ network (after (refreshAccessToken Engine.platform
                       (HomeProps.answering 400 (Normal Run.invalid_grant)))
                    (mount Engine.platform HomeProps.logged_in))
     = [refresh_request Engine.platform "ghi"]
  /\ sessionStorage (after (refreshAccessToken Engine.platform
                              (HomeProps.answering 400 (Normal Run.invalid_grant)))
                           (mount Engine.platform HomeProps.logged_in))
     = HomeProps.logged_in
  /\ tokens (state (after (refreshAccessToken Engine.platform
                             (HomeProps.answering 400 (Normal Run.invalid_grant)))
                          (mount Engine.platform HomeProps.logged_in)))
     = JNull
  /\ loading (state (after (refreshAccessToken Engine.platform
                              (HomeProps.answering 400 (Normal Run.invalid_grant)))
                           (mount Engine.platform HomeProps.logged_in)))
     = false.
Proof.
  split; [reflexivity|]. split; [discriminate|].
  exact (refreshAccessToken_rejected Engine.platform
           (HomeProps.answering 400 (Normal Run.invalid_grant))
           (mount Engine.platform HomeProps.logged_in) "ghi"
           {| Callback.status := 400; Callback.json_body := Normal Run.invalid_grant |}
           eq_refl ltac:(discriminate) eq_refl eq_refl).
Defined.

(** X19: when the endpoint answers [refreshAccessToken] with 2xx and the
    JSON body null, the displayed tokens are already replaced by null when
    reading [access_token] throws: the page ends with an error and shows no
    tokens, while session storage still holds every token it held. *)
Theorem refreshAccessToken_null_body (P : Platform)
        (server : Request -> completion (Callback.Response (number P)))
        (w : World P) (refreshToken : string) (resp : Callback.Response (number P)) :
  sessionStorage w !! "refresh_token" = Some refreshToken ->
  refreshToken <> EmptyString ->
  server (refresh_request P refreshToken) = Normal resp ->
  Callback.ok resp = true ->
  Callback.json_body resp = Normal JNull ->
  let w' := after (refreshAccessToken P server) w in
  tokens (state w') = JNull
  /\ error (state w') = Some (null_property_message P "access_token")
  /\ sessionStorage w' = sessionStorage w.
Proof.
  intros Ht Hne Hs Hok Hj. cbv zeta. run_home. rewrite Ht. cbn.
  rewrite (eqb_nonempty _ Hne). cbn. rewrite Hs. cbn. rewrite Hok. cbn.
  rewrite Hj. cbn. repeat split.
Qed.

Lemma refreshAccessToken_null_body_witness :
  HomeProps.logged_in !! "refresh_token" = Some "ghi"
  /\ "ghi" <> EmptyString
  /\ tokens (state (after (refreshAccessToken Engine.platform
                             (HomeProps.answering 200 (Normal JNull)))
                          (HomeProps.stale Engine.platform HomeProps.logged_in
                                           Run.token_response)))
     = JNull
  /\ error (state (after (refreshAccessToken Engine.platform
                            (HomeProps.answering 200 (Normal JNull)))
                         (HomeProps.stale Engine.platform HomeProps.logged_in
                                          Run.token_response)))
     = Some "Cannot read properties of null (reading 'access_token')"
  /\ sessionStorage (after (refreshAccessToken Engine.platform
                              (HomeProps.answering 200 (Normal JNull)))
                           (HomeProps.stale Engine.platform HomeProps.logged_in
                                            Run.token_response))
     = HomeProps.logged_in.
Proof.
  split; [reflexivity|]. split; [discriminate|].
  exact (refreshAccessToken_null_body Engine.platform
           (HomeProps.answering 200 (Normal JNull))
           (HomeProps.stale Engine.platform HomeProps.logged_in Run.token_response) "ghi"
           {| Callback.status := 200; Callback.json_body := Normal JNull |}
           eq_refl ltac:(discriminate) eq_refl eq_refl eq_refl).
Defined.



(** X21: [logout] always empties session storage, resets the displayed
    tokens, user info and introspection result, and dispatches no request.
    The [id_token_hint] comes from the displayed tokens, not from session
    storage: when they have a truthy [id_token] with a string form, the page
    navigates to the end-session endpoint with [post_logout_redirect_uri],
    [id_token_hint] and [state]; when the [id_token] is falsy or no tokens
    are displayed, with [post_logout_redirect_uri] and [state] only; and
    when a truthy [id_token] has no string form, the handler stops there
    and the page does not navigate. *)
Theorem logout_outcome (P : Platform) (w : World P) (uuid : string) :
  let w' := after (logout P uuid) w in
  let idToken := optional_id_token P (tokens (state w)) in
  sessionStorage w' = empty
  /\ network w' = network w
  /\ tokens (state w') = JNull
  /\ userInfo (state w') = JNull
  /\ introspectionResult (state w') = JNull
  /\ error (state w') = error (state w)
  /\ (if ToBoolean P idToken
      then match ToString P idToken with
           | Normal text =>
               location w'
               = Some ("http://localhost:4001/oidc/session/end?" +:+
                       URLSearchParams_toString P
                         [("post_logout_redirect_uri", "http://localhost:3000");
                          ("id_token_hint", text);
                          ("state", uuid)])
           | Throw _ => location w' = location w
           end
      else location w'
           = Some ("http://localhost:4001/oidc/session/end?" +:+
                   URLSearchParams_toString P
                     [("post_logout_redirect_uri", "http://localhost:3000");
                      ("state", uuid)]))
  /\ (tokens (state w) = JNull ->
      location w'
      = Some ("http://localhost:4001/oidc/session/end?" +:+
              URLSearchParams_toString P
                [("post_logout_redirect_uri", "http://localhost:3000");
                 ("state", uuid)])).
Proof.
  cbv zeta. run_home. unfold id_token_hint.
  destruct (ToBoolean P (optional_id_token P (tokens (state w)))) eqn:Hhint; cbn.
  - destruct (ToString P (optional_id_token P (tokens (state w)))); cbn;
      do 6 (split; [reflexivity|]); (split; [reflexivity|]);
      intros Hnull; rewrite Hnull in Hhint; discriminate Hhint.
  - do 6 (split; [reflexivity|]). split; reflexivity.
Qed.

Lemma logout_outcome_witness :
  sessionStorage (after (logout Engine.platform "a-uuid")
                        (mount Engine.platform HomeProps.logged_in))
  = empty
  /\ location (after (logout Engine.platform "a-uuid")
                     (mount Engine.platform HomeProps.logged_in))
     = Some ("http://localhost:4001/oidc/session/end?" +:+
             "post_logout_redirect_uri=http%3A%2F%2Flocalhost%3A3000&state=a-uuid").
Proof.
  destruct (logout_outcome Engine.platform (mount Engine.platform HomeProps.logged_in)
                           "a-uuid") as (Hs & _ & _ & _ & _ & _ & _ & Hl).
  split; [exact Hs | exact (Hl eq_refl)].
Defined.

(** X22: what the callback page stores is what the home page shows.  After
    an exchange that succeeds (a 2xx answer with a JSON body other than
    null, whose [access_token], [id_token] and truthy [refresh_token] have
    string forms), a home page mounted over the resulting session storage
    (on an engine whose [JSON.parse] reads back this body's [JSON.stringify]
    text) displays the token response itself, without any request and
    without touching session storage. *)
Theorem home_shows_exchanged_tokens (P : Platform)
        (server : Callback.Request -> completion (Callback.Response (number P)))
        (JSON_parse : string -> completion (json (number P)))
        (code verifier : string) (storage : gmap string string)
        (resp : Callback.Response (number P)) (tokenData : json (number P))
        (access_text id_text refresh_text : string) :
  storage !! "code_verifier" = Some verifier ->
  verifier <> EmptyString ->
  server (Callback.token_request P code verifier) = Normal resp ->
  Callback.ok resp = true ->
  Callback.json_body resp = Normal tokenData ->
  tokenData <> JNull ->
  ToString P (property P tokenData "access_token") = Normal access_text ->
  ToString P (property P tokenData "id_token") = Normal id_text ->
  (if ToBoolean P (property P tokenData "refresh_token")
   then ToString P (property P tokenData "refresh_token")
   else Normal EmptyString) = Normal refresh_text ->
  JSON_stringify P tokenData <> EmptyString ->
  JSON_parse (JSON_stringify P tokenData) = Normal tokenData ->
  let callback := Callback.exchange P server code storage in
  let home := after (useEffect P JSON_parse)
                    (mount P (Callback.sessionStorage callback)) in
  Callback.error callback = None
  /\ tokens (state home) = tokenData
  /\ error (state home) = None
  /\ network home = []
  /\ console home = []
  /\ sessionStorage home = Callback.sessionStorage callback.
Proof.
  intros Hv Hne Hs Hok Hj Hdata Haccess Hid Hrefresh Htext Hparse. cbv zeta.
  rewrite (exchange_written P server code verifier storage Hv Hne resp tokenData
             Hs Hok Hj Hdata).
  assert (Hwritten :
            exists s, Callback.write_tokens P tokenData storage = (s, None)
                      /\ s !! "tokens" = Some (JSON_stringify P tokenData)).
  { unfold Callback.write_tokens. rewrite Haccess, Hid.
    destruct (ToBoolean P (property P tokenData "refresh_token")).
    - rewrite Hrefresh. eexists. split; [reflexivity | apply lookup_insert_eq].
    - eexists. split; [reflexivity | apply lookup_insert_eq]. }
  destruct Hwritten as (s & -> & Hlookup).
  unfold Callback.written. cbn [snd fst Callback.succeeded Callback.sessionStorage
                                Callback.error].
  split; [reflexivity|].
  unfold mount. run_home. rewrite Hlookup. cbn.
  rewrite (eqb_nonempty _ Htext). cbn. rewrite Hparse. cbn.
  repeat split.
Qed.

Lemma home_shows_exchanged_tokens_witness :
  Run.session !! "code_verifier" = Some Run.verifier
  /\ Engine.stringify Run.token_response <> EmptyString
  /\ ToString Engine.platform (property Engine.platform Run.token_response "id_token")
     = Normal "def"
  /\ tokens (state (after (useEffect Engine.platform
                             (HomeProps.parse_only (Engine.stringify Run.token_response)
                                                   Run.token_response))
                          (mount Engine.platform
                             (Callback.sessionStorage
                                (Run.exchange 200 (Normal Run.token_response)
                                              Run.session)))))
     = Run.token_response.
Proof.
  split; [reflexivity|]. split; [discriminate|]. split; [reflexivity|].
  apply (home_shows_exchanged_tokens Engine.platform
           (Engine.answering 200 (Normal Run.token_response))
           (HomeProps.parse_only (Engine.stringify Run.token_response) Run.token_response)
           Run.code Run.verifier Run.session
           {| Callback.status := 200; Callback.json_body := Normal Run.token_response |}
           Run.token_response "abc" "def" EmptyString
           eq_refl ltac:(discriminate) eq_refl eq_refl eq_refl ltac:(discriminate)
           eq_refl eq_refl eq_refl ltac:(discriminate) eq_refl).
Defined.

(** X23: a [tokens] entry that does not parse is dropped silently on mount:
    the page shows no tokens and no error, logs one console line with the
    parser's message, dispatches nothing, and leaves the entry in session
    storage. *)
Theorem useEffect_unparseable_tokens (P : Platform)
        (JSON_parse : string -> completion (json (number P)))
        (storage : gmap string string) (text message : string) :
  storage !! "tokens" = Some text ->
  text <> EmptyString ->
  JSON_parse text = Throw message ->
  after (useEffect P JSON_parse) (mount P storage)
  = {| sessionStorage := storage; network := []; location := None; alerts := [];
       console := ["Failed to parse stored tokens: " +:+ message];
       state := state (mount P storage) |}.
Proof.
  intros Ht Hne Hparse. run_home. rewrite Ht. cbn.
  rewrite (eqb_nonempty _ Hne). cbn. rewrite Hparse. reflexivity.
Qed.

Lemma useEffect_unparseable_tokens_witness :
  ({[ "tokens" := "{oops" ]} : gmap string string) !! "tokens" = Some "{oops"
  /\ "{oops" <> EmptyString
  /\ tokens (state (after (useEffect Engine.platform
                             (HomeProps.parse_only "{}" Run.empty_object))
                          (mount Engine.platform {[ "tokens" := "{oops" ]})))
     = JNull
  /\ console (after (useEffect Engine.platform
                       (HomeProps.parse_only "{}" Run.empty_object))
                    (mount Engine.platform {[ "tokens" := "{oops" ]}))
     = ["Failed to parse stored tokens: Unexpected token in JSON"].
Proof.
  split; [reflexivity|]. split; [discriminate|].
  rewrite (useEffect_unparseable_tokens Engine.platform
             (HomeProps.parse_only "{}" Run.empty_object)
             {[ "tokens" := "{oops" ]} "{oops" "Unexpected token in JSON");
    [split; reflexivity | reflexivity | discriminate | reflexivity].
Defined.

(** X24: [getDiscoveryInfo] needs no login: whatever session storage
    holds, it sends exactly one GET, without headers, to the discovery
    document.  It shows the body of a 2xx answer that parses; otherwise it
    keeps what it showed and reports [Failed to get discovery info] (non-2xx),
    the parser's message, or the network error. *)
Theorem getDiscoveryInfo_outcome (P : Platform)
        (server : Request -> completion (Callback.Response (number P)))
        (w : World P) :
  let w' := after (getDiscoveryInfo P server) w in
  network w' = network w ++ [HomeProps.discovery_request]
  /\ match server HomeProps.discovery_request with
     | Normal resp =>
         if Callback.ok resp
         then match Callback.json_body resp with
              | Normal data =>
                  discoveryInfo (state w') = data /\ error (state w') = None
              | Throw syntax_error =>
                  discoveryInfo (state w') = discoveryInfo (state w)
                  /\ error (state w') = Some syntax_error
              end
         else discoveryInfo (state w') = discoveryInfo (state w)
              /\ error (state w') = Some "Failed to get discovery info"
     | Throw message =>
         discoveryInfo (state w') = discoveryInfo (state w)
         /\ error (state w') = Some message
     end.
Proof.
  cbv zeta. run_home. fold HomeProps.discovery_request.
  destruct (server HomeProps.discovery_request) as [resp|message]; cbn;
    [|repeat split].
  destruct (Callback.ok resp); cbn; [|repeat split].
  destruct (Callback.json_body resp); cbn; repeat split.
Qed.

End HomeFacts.
